(** * Azure Cosmos DB (MongoDB vCore) memory store

    A shallow embedding of
    [semantic_kernel/connectors/memory/azure_cosmosdb/azure_cosmos_db_memory_store.py]:
    the abstract store API [AzureCosmosDBStoreApi], its MongoDB adapter
    [MongoStoreApi] and the facade [AzureCosmosDBMemoryStore].

    Python code that mutates [self] or the database is written in a
    state-and-exception monad; a raised exception is the [Err] outcome and
    keeps the state reached so far, as in Python. *)

From Stdlib Require Import ZArith Ascii String Floats.SpecFloat.
From stdpp Require Import gmap strings list fin_maps.

Local Open Scope string_scope.

(** ** Python values used by the store *)

(** A Python [float] is an IEEE 754 double; the store only compares floats,
    so the specification-level floats of the Standard Library suffice.
    [a < b] in Python is [SFltb a b]: false as soon as one side is NaN. *)
Abbreviation float := spec_float.

(** A one-dimensional [numpy.ndarray] of floats, with [tolist] and
    [np.array] the two conversions between it and a Python list. *)
Definition ndarray := list float.
Definition tolist (a : ndarray) : list float := a.
Definition np_array (l : list float) : ndarray := l.

(** A [datetime], as an instant at the resolution the database keeps. *)
Definition datetime := Z.

(** ** Exceptions *)

Inductive exn :=
| NotImplementedError
| AssertionError
| AttributeError (attr : string)   (* 'NoneType' object has no attribute .. *)
| TypeError_not_subscriptable      (* 'NoneType' object is not subscriptable *)
| TypeError_empty_documents        (* documents must be a non-empty list *)
| KeyError (k : string)
| IndexError
| BulkWriteError                   (* E11000 duplicate key *)
| OperationFailure.

Inductive result (A : Type) :=
| Ok (a : A)
| Err (e : exn).
Arguments Ok {A} a.
Arguments Err {A} e.

(** ** The state-and-exception monad *)

Definition M (S A : Type) : Type := S → result A * S.

Definition ret {S A} (a : A) : M S A := λ s, (Ok a, s).
Definition raise {S A} (e : exn) : M S A := λ s, (Err e, s).
Definition bind {S A B} (k : A → M S B) (m : M S A) : M S B :=
  λ s, match m s with
       | (Ok a, s') => k a s'
       | (Err e, s') => (Err e, s')
       end.
Definition get_state {S} : M S S := λ s, (Ok s, s).
Definition put_state {S} (s : S) : M S unit := λ _, (Ok tt, s).

(** The monad is used through stdpp's notations [x ← m; k] and [m;; k]. *)
#[global] Instance M_ret {S} : MRet (M S) := @ret S.
#[global] Instance M_bind {S} : MBind (M S) := @bind S.

(** [d[k]] on a dictionary that may lack the key [k]. *)
Definition subscript {S A} (k : string) (o : option A) : M S A :=
  match o with
  | Some v => ret v
  | None => raise (KeyError k)
  end.

(** The body of a list comprehension or of a [for] loop that builds a list:
    elements are visited in order and the first exception stops the loop. *)
Fixpoint for_each {S A B} (f : A → M S B) (l : list A) : M S (list B) :=
  match l with
  | [] => ret []
  | x :: l' => y ← f x; ys ← for_each f l'; ret (y :: ys)
  end.

(** ** [json.dumps] on the values the store serialises *)

Module json.

Definition dquote : ascii := "034"%char.
Definition backslash : ascii := "092"%char.

Definition hex_digit (n : N) : ascii :=
  match n with
  | 0 => "0" | 1 => "1" | 2 => "2" | 3 => "3" | 4 => "4" | 5 => "5"
  | 6 => "6" | 7 => "7" | 8 => "8" | 9 => "9" | 10 => "a" | 11 => "b"
  | 12 => "c" | 13 => "d" | 14 => "e" | _ => "f"
  end%N%char.

(** [ESCAPE_ASCII]: the backslash, the double quote, and every character
    outside [' ' .. '~'] are escaped.  A character of a [string] stands
    for the code point of the same number (0 to 255). *)
Definition escape (c : ascii) : string :=
  let n := N_of_ascii c in
  if (n =? 92)%N then String backslash (String backslash "")
  else if (n =? 34)%N then String backslash (String dquote "")
  else if (n =? 8)%N then String backslash "b"
  else if (n =? 12)%N then String backslash "f"
  else if (n =? 10)%N then String backslash "n"
  else if (n =? 13)%N then String backslash "r"
  else if (n =? 9)%N then String backslash "t"
  else if ((32 <=? n) && (n <=? 126))%N then String c ""
  else String backslash
         ("u00" ++ String (hex_digit (n / 16)) (String (hex_digit (n mod 16)) "")).

Fixpoint escape_all (s : string) : string :=
  match s with
  | EmptyString => ""
  | String c s' => escape c ++ escape_all s'
  end.

Definition quoted (s : string) : string :=
  String dquote (escape_all s ++ String dquote "").

(** An [Optional[str]]: [None] is [null]. *)
Definition dumps_opt_str (o : option string) : string :=
  match o with
  | None => "null"
  | Some s => quoted s
  end.

(** A dictionary with string keys and [Optional[str]] values, with the
    default separators [", "] and [": "], keys in insertion order. *)
Fixpoint dumps_items (kvs : list (string * option string)) : string :=
  match kvs with
  | [] => ""
  | [(k, v)] => quoted k ++ ": " ++ dumps_opt_str v
  | (k, v) :: kvs' => quoted k ++ ": " ++ dumps_opt_str v ++ ", " ++ dumps_items kvs'
  end.

Definition dumps (kvs : list (string * option string)) : string :=
  "{" ++ dumps_items kvs ++ "}".

End json.

(** ** The record model *)

(** Modelled from the spec: the class [MemoryRecord] of
    [semantic_kernel.memory.memory_record] is not among the sources; its
    fields are those of the specification's Record (id, embedding, text,
    description, metadata, optional timestamp), under the names the store and
    its tests use, and [local_record] builds a record from them. *)
Module MemoryRecord.
Record t := mk {
  id : string;
  embedding : ndarray;
  text : string;
  description : string;
  additional_metadata : string;
  timestamp : option datetime;
}.

Definition local_record (id : string) (embedding : ndarray) (text : string)
    (description : string) (additional_metadata : string)
    (timestamp : option datetime) : t :=
  mk id embedding text description additional_metadata timestamp.
End MemoryRecord.

(** ** Documents, collections and the MongoDB client *)

(** A document of the collection: the dictionary the store writes, with the
    keys it reads.  [_id] is always there; each other key is present
    ([Some]) or absent ([None]), and subscripting an absent key raises
    [KeyError]. *)
Module Doc.
Record t := mk {
  _id : string;
  embedding : option (list float);
  text : option string;
  description : option string;
  metadata : option string;
  timestamp : option datetime;
}.

(** The projection [{"embedding": 0}]. *)
Definition without_embedding (d : t) : t :=
  mk (_id d) None (text d) (description d) (metadata d) (timestamp d).
End Doc.

(** [cosmosdb_utils.CosmosDBSimilarityType] *)
Inductive CosmosDBSimilarityType := COS | IP | L2.

#[global] Instance CosmosDBSimilarityType_eq_dec : EqDecision CosmosDBSimilarityType.
Proof. solve_decision. Defined.

Record cosmosSearchOptions := {
  kind : string;
  numLists : Z;
  similarity : CosmosDBSimilarityType;
  dimensions : Z;
}.

#[global] Instance cosmosSearchOptions_eq_dec : EqDecision cosmosSearchOptions.
Proof. solve_decision. Defined.

(** One entry of [indexDefs]. *)
Record indexDef := {
  name : string;
  key : string * string;
  options : cosmosSearchOptions;
}.

(** What [index_information] reports under an index name. *)
Inductive index_info :=
| id_index                                                   (* the index "_id_" *)
| search_index (key : string * string) (opts : cosmosSearchOptions).

#[global] Instance index_info_eq_dec : EqDecision index_info.
Proof. solve_decision. Defined.

Record Collection := {
  documents : list Doc.t;                (* in natural (insertion) order *)
  indexes : gmap string index_info;
}.

(** A collection as the server creates it on first use. *)
Definition new_collection : Collection :=
  {| documents := []; indexes := {["_id_" := id_index]} |}.

(** A database command sent with [Database.command]. *)
Inductive command :=
| createIndexes (db coll : string) (defs : list indexDef).

(** The client together with the server it talks to: the collections that
    exist, by database name and collection name, and the commands sent so
    far (most recent first). *)
Record MongoClient := {
  is_mongos : bool;
  collections : gmap (string * string) Collection;
  commands : list command;
}.

Module pymongo.

Definition set_collections (cs : gmap (string * string) Collection)
    (c : MongoClient) : MongoClient :=
  {| is_mongos := is_mongos c; collections := cs; commands := commands c |}.

(** [client[db][coll]] is a lazy handle: the pair of names. *)
Definition handle := (string * string)%type.

Definition lookup_collection (h : handle) (c : MongoClient) : Collection :=
  default new_collection (collections c !! h).

(** [client[db].list_collection_names()] *)
Definition list_collection_names (db : string) (c : MongoClient) : list string :=
  (filter (λ h : string * string, h.1 = db) (map_to_list (collections c)).*1).*2.

(** [collection.index_information()]: empty for a collection that does
    not exist. *)
Definition index_information (h : handle) (c : MongoClient)
    : gmap string index_info :=
  match collections c !! h with
  | Some col => indexes col
  | None => ∅
  end.

(** [collection.drop()] *)
Definition drop (h : handle) : M MongoClient unit :=
  λ c, (Ok tt, set_collections (delete h (collections c)) c).

Definition has_id (k : string) (d : Doc.t) : bool := String.eqb (Doc._id d) k.

(** One insert of an ordered bulk write: the unique index on [_id]
    rejects a second document with the same id; the collection is created
    when it does not exist. *)
Definition insert_one (h : handle) (d : Doc.t) : M MongoClient unit :=
  λ c, let col := lookup_collection h c in
       if existsb (has_id (Doc._id d)) (documents col)
       then (Err BulkWriteError, c)
       else (Ok tt,
             set_collections
               (<[h := {| documents := documents col ++ [d];
                          indexes := indexes col |}]> (collections c)) c).

(** [collection.insert_many(docs)], ordered: documents are written in
    order and the first failure stops the write, the earlier ones staying
    written. *)
Definition insert_many (h : handle) (docs : list Doc.t) : M MongoClient unit :=
  match docs with
  | [] => raise TypeError_empty_documents
  | _ => for_each (insert_one h) docs;; ret tt
  end.

Definition apply_projection (no_embedding : bool) (d : Doc.t) : Doc.t :=
  if no_embedding then Doc.without_embedding d else d.

(** [collection.find_one({"_id": key}, projection)]: the first match, or
    [None]. *)
Definition find_one (h : handle) (key : string) (no_embedding : bool)
    (c : MongoClient) : option Doc.t :=
  apply_projection no_embedding
    <$> head (List.filter (has_id key) (documents (lookup_collection h c))).

(** [collection.find({"_id": {"$in": keys}}, projection)] *)
Definition find (h : handle) (keys : list string) (no_embedding : bool)
    (c : MongoClient) : list Doc.t :=
  apply_projection no_embedding
    <$> List.filter (λ d, existsb (String.eqb (Doc._id d)) keys)
          (documents (lookup_collection h c)).

Fixpoint remove_first (k : string) (ds : list Doc.t) : list Doc.t :=
  match ds with
  | [] => []
  | d :: ds' => if has_id k d then ds' else d :: remove_first k ds'
  end.

Definition update_documents (h : handle) (f : list Doc.t → list Doc.t)
    : M MongoClient unit :=
  λ c, match collections c !! h with
       | Some col =>
           (Ok tt,
            set_collections
              (<[h := {| documents := f (documents col);
                         indexes := indexes col |}]> (collections c)) c)
       | None => (Ok tt, c)
       end.

(** [collection.delete_one({"_id": key})] *)
Definition delete_one (h : handle) (key : string) : M MongoClient unit :=
  update_documents h (remove_first key).

(** [collection.delete_many({"_id": {"$in": keys}})] *)
Definition delete_many (h : handle) (keys : list string) : M MongoClient unit :=
  update_documents h
    (List.filter (λ d, negb (existsb (String.eqb (Doc._id d)) keys))).

(** Creating one index: a new name is added; the same definition again is
    accepted and changes nothing; another definition under a taken name is
    refused. *)
Definition create_index (h : handle) (d : indexDef) : M MongoClient unit :=
  λ c, let col := lookup_collection h c in
       let info := search_index (key d) (options d) in
       match indexes col !! name d with
       | None =>
           (Ok tt,
            set_collections
              (<[h := {| documents := documents col;
                         indexes := <[name d := info]> (indexes col) |}]>
                 (collections c)) c)
       | Some info' =>
           if decide (info' = info) then (Ok tt, c) else (Err OperationFailure, c)
       end.

(** [client[db].command("createIndexes", coll, indexes=defs)] *)
Definition command_createIndexes (db coll : string) (defs : list indexDef)
    : M MongoClient unit :=
  λ c, (for_each (create_index (db, coll)) defs;; ret tt)
         {| is_mongos := is_mongos c; collections := collections c;
            commands := createIndexes db coll defs :: commands c |}.

End pymongo.

(** ** The abstract store API *)

(** [class AzureCosmosDBStoreApi(ABC)]: the operations an adapter with state
    [S] implements.  A count of candidates ([limit]) is a natural number. *)
Module AzureCosmosDBStoreApi.
Class t (S : Type) := {
  ensure : Z → CosmosDBSimilarityType → Z → M S unit;
  create_collection_core : string → M S unit;
  get_collections_core : M S (list string);
  delete_collection_core : string → M S unit;
  does_collection_exist_core : string → M S bool;
  upsert_core : string → MemoryRecord.t → M S string;
  upsert_batch_core : string → list MemoryRecord.t → M S (list string);
  get_core : string → string → bool → M S MemoryRecord.t;
  get_batch_core : string → list string → bool → M S (list MemoryRecord.t);
  remove_core : string → string → M S unit;
  remove_batch_core : string → list string → M S unit;
  get_nearest_matches_core :
    string → ndarray → nat → float → bool → M S (list (MemoryRecord.t * float));
  get_nearest_match_core :
    string → ndarray → float → bool → M S (option (MemoryRecord.t * float));
}.
End AzureCosmosDBStoreApi.

(** ** The MongoDB adapter *)

(** One result of the aggregation pipeline, after its [$project] stage. *)
Record aggResult := {
  agg_id : string;                 (* "_id" *)
  similarityScore : float;
  document : Doc.t;
}.

(** [class MongoStoreApi]: the state of an adapter object. *)
Record MongoStoreApi := {
  collection : option pymongo.handle;     (* [None] until [ensure] *)
  mongoClient : MongoClient;
}.

(** [MongoStoreApi.__init__] *)
Definition MongoStoreApi_init (mongoClient : MongoClient) : MongoStoreApi :=
  {| collection := None; mongoClient := mongoClient |}.

(** A call on the client held by the adapter. *)
Definition on_client {A} (m : M MongoClient A) : M MongoStoreApi A :=
  λ self, let (r, c) := m (mongoClient self) in
          (r, {| collection := collection self; mongoClient := c |}).

(** [self.collection.<attr>]: an [AttributeError] while the handle is
    [None]. *)
Definition self_collection (attr : string) : M MongoStoreApi pymongo.handle :=
  λ self, match collection self with
          | Some h => (Ok h, self)
          | None => (Err (AttributeError attr), self)
          end.

(** [__serialize_metadata] *)
Definition __serialize_metadata (record : MemoryRecord.t) : string :=
  json.dumps [("text", Some (MemoryRecord.text record));
              ("description", Some (MemoryRecord.description record));
              ("additional_metadata", Some (MemoryRecord.additional_metadata record))].

(** The dictionary [cosmosRecord] that [upsert_batch_core] builds for one
    record: the key ["timestamp"] is set only for a record that has one. *)
Definition cosmosRecord (record : MemoryRecord.t) : Doc.t :=
  let d := {| Doc._id := MemoryRecord.id record;
              Doc.embedding := Some (tolist (MemoryRecord.embedding record));
              Doc.text := Some (MemoryRecord.text record);
              Doc.description := Some (MemoryRecord.description record);
              Doc.metadata := Some (__serialize_metadata record);
              Doc.timestamp := None |} in
  match MemoryRecord.timestamp record with
  | Some ts =>
      {| Doc._id := Doc._id d; Doc.embedding := Doc.embedding d;
         Doc.text := Doc.text d; Doc.description := Doc.description d;
         Doc.metadata := Doc.metadata d; Doc.timestamp := Some ts |}
  | None => d
  end.

(** The call [MemoryRecord.local_record(id=.., embedding=.., text=..,
    description=.., additional_metadata=.., timestamp=..)] on a document
    [result]; the arguments are evaluated in this order, so the first
    missing key is the one reported. *)
Definition record_of_document {S} (id : string) (with_embedding : bool)
    (result : Doc.t) : M S MemoryRecord.t :=
  embedding ← (if with_embedding
               then l ← subscript "embedding" (Doc.embedding result); ret (np_array l)
               else ret (np_array []));
  text ← subscript "text" (Doc.text result);
  description ← subscript "description" (Doc.description result);
  metadata ← subscript "metadata" (Doc.metadata result);
  timestamp ← subscript "timestamp" (Doc.timestamp result);
  ret (MemoryRecord.local_record id embedding text description metadata
         (Some timestamp)).

(** The same call on the result of [find_one], which is [None] when no
    document matches. *)
Definition record_of_result {S} (with_embedding : bool)
    (result : option Doc.t) : M S MemoryRecord.t :=
  match result with
  | None => raise TypeError_not_subscriptable
  | Some d => record_of_document (Doc._id d) with_embedding d
  end.

(** The loop of [get_nearest_matches_core] over the results of the
    aggregation. *)
Fixpoint nearest_results_loop {S} (min_relevance_score : float)
    (with_embeddings : bool) (aggs : list aggResult)
    : M S (list (MemoryRecord.t * float)) :=
  match aggs with
  | [] => ret []
  | agg :: aggs' =>
      result ← record_of_document (agg_id agg) with_embeddings (document agg);
      if SFltb (similarityScore agg) min_relevance_score
      then nearest_results_loop min_relevance_score with_embeddings aggs'
      else
        nearest_results ←
          nearest_results_loop min_relevance_score with_embeddings aggs';
        ret ((result, similarityScore agg) :: nearest_results)
  end.

(** ** The facade *)

(** [class AzureCosmosDBMemoryStore]: the facade holds one adapter, of any
    class that implements the API. *)
Record AzureCosmosDBMemoryStore (S : Type) := {
  cosmosStore : S;
}.
Arguments cosmosStore {S} _.
Arguments Build_AzureCosmosDBMemoryStore {S} _.

(** [AzureCosmosDBMemoryStore.__init__] *)
Definition AzureCosmosDBMemoryStore_init {S} (cosmosStore : S)
    : AzureCosmosDBMemoryStore S :=
  {| cosmosStore := cosmosStore |}.

(** A call on the adapter held by the facade. *)
Definition on_store {S A} (m : M S A) : M (AzureCosmosDBMemoryStore S) A :=
  λ self, let (r, s) := m (cosmosStore self) in (r, {| cosmosStore := s |}).

(** The [MongoClient] objects constructed so far, by connection string
    (most recent first). *)
Definition World := list string.

Section Store.

(** The settings read from the environment when the module is loaded
    ([azure_cosmos_db_settings_from_dot_env]). *)
Variables cosmos_api cosmos_connstr : string.
Variables cosmos_database_name cosmos_container_name : string.

(** The server reached by [MongoClient(connection_string)]. *)
Variable MongoClient_connect : string → MongoClient.

(** The database's vector search ([$search] with [cosmosSearch]) over a
    collection, for a query vector and a candidate count [k]: the
    candidates in the database's ranking order, each with its score. *)
Variable cosmosSearch : Collection → list float → nat → list (Doc.t * float).

(** [collection.aggregate(pipeline)] for the pipeline of
    [get_nearest_matches_core]. *)
Definition aggregate (h : pymongo.handle) (vector : list float) (k : nat)
    (c : MongoClient) : list aggResult :=
  (λ '(d, score),
     {| agg_id := Doc._id d; similarityScore := score; document := d |})
    <$> cosmosSearch (pymongo.lookup_collection h c) vector k.

Definition ensure (num_lists : Z) (similarity : CosmosDBSimilarityType)
    (vector_dimensions : Z) : M MongoStoreApi unit :=
  self ← get_state;
  if is_mongos (mongoClient self) then
    let h := (cosmos_database_name, cosmos_container_name) in
    put_state {| collection := Some h; mongoClient := mongoClient self |};;
    let indexes := pymongo.index_information h (mongoClient self) in
    match indexes !! "embedding_cosmosSearch" with
    | None =>
        let indexDefs :=
          [ {| name := "embedding_cosmosSearch";
               key := ("embedding", "cosmosSearch");
               options := {| kind := "vector-ivf";
                             numLists := num_lists;
                             similarity := similarity;
                             dimensions := vector_dimensions |} |} ] in
        on_client (pymongo.command_createIndexes
                     cosmos_database_name cosmos_container_name indexDefs)
    | Some _ => ret tt
    end
  else raise AssertionError.

Definition create_collection_core (collection_name : string)
    : M MongoStoreApi unit :=
  ret tt.

Definition get_collections_core : M MongoStoreApi (list string) :=
  self ← get_state;
  ret (pymongo.list_collection_names cosmos_database_name (mongoClient self)).

Definition delete_collection_core (collection_name : string)
    : M MongoStoreApi unit :=
  h ← self_collection "drop";
  on_client (pymongo.drop h).

Definition does_collection_exist_core (collection_name : string)
    : M MongoStoreApi bool :=
  self ← get_state;
  ret (bool_decide
         (cosmos_container_name
            ∈ pymongo.list_collection_names cosmos_database_name
                (mongoClient self))).

Definition upsert_batch_core (collection_name : string)
    (records : list MemoryRecord.t) : M MongoStoreApi (list string) :=
  let cosmosRecords := cosmosRecord <$> records in
  let doc_ids := Doc._id <$> cosmosRecords in
  h ← self_collection "insert_many";
  on_client (pymongo.insert_many h cosmosRecords);;
  ret doc_ids.

Definition upsert_core (collection_name : string) (record : MemoryRecord.t)
    : M MongoStoreApi string :=
  result ← upsert_batch_core collection_name [record];
  match result !! 0%nat with
  | Some doc_id => ret doc_id
  | None => raise IndexError
  end.

Definition get_core (collection_name : string) (key : string)
    (with_embedding : bool) : M MongoStoreApi MemoryRecord.t :=
  h ← self_collection "find_one";
  self ← get_state;
  let result :=
    pymongo.find_one h key (negb with_embedding) (mongoClient self) in
  record_of_result with_embedding result.

Definition get_batch_core (collection_name : string) (keys : list string)
    (with_embeddings : bool) : M MongoStoreApi (list MemoryRecord.t) :=
  h ← self_collection "find";
  self ← get_state;
  let results :=
    pymongo.find h keys (negb with_embeddings) (mongoClient self) in
  for_each (λ result, record_of_document (Doc._id result) with_embeddings result)
    results.

Definition remove_core (collection_name : string) (key : string)
    : M MongoStoreApi unit :=
  h ← self_collection "delete_one";
  on_client (pymongo.delete_one h key).

Definition remove_batch_core (collection_name : string) (keys : list string)
    : M MongoStoreApi unit :=
  h ← self_collection "delete_many";
  on_client (pymongo.delete_many h keys).

Definition get_nearest_matches_core (collection_name : string)
    (embedding : ndarray) (limit : nat) (min_relevance_score : float)
    (with_embeddings : bool) : M MongoStoreApi (list (MemoryRecord.t * float)) :=
  h ← self_collection "aggregate";
  self ← get_state;
  nearest_results_loop min_relevance_score with_embeddings
    (aggregate h (tolist embedding) limit (mongoClient self)).

Definition get_nearest_match_core (collection_name : string)
    (embedding : ndarray) (min_relevance_score : float)
    (with_embedding : bool) : M MongoStoreApi (option (MemoryRecord.t * float)) :=
  nearest_results ←
    get_nearest_matches_core collection_name embedding 1 min_relevance_score
      with_embedding;
  if (0 <? length nearest_results)%nat then
    match nearest_results !! 0%nat with
    | Some r => ret (Some r)
    | None => raise IndexError
    end
  else ret None.

#[export] Instance MongoStoreApi_api : AzureCosmosDBStoreApi.t MongoStoreApi := {|
  AzureCosmosDBStoreApi.ensure := ensure;
  AzureCosmosDBStoreApi.create_collection_core := create_collection_core;
  AzureCosmosDBStoreApi.get_collections_core := get_collections_core;
  AzureCosmosDBStoreApi.delete_collection_core := delete_collection_core;
  AzureCosmosDBStoreApi.does_collection_exist_core := does_collection_exist_core;
  AzureCosmosDBStoreApi.upsert_core := upsert_core;
  AzureCosmosDBStoreApi.upsert_batch_core := upsert_batch_core;
  AzureCosmosDBStoreApi.get_core := get_core;
  AzureCosmosDBStoreApi.get_batch_core := get_batch_core;
  AzureCosmosDBStoreApi.remove_core := remove_core;
  AzureCosmosDBStoreApi.remove_batch_core := remove_batch_core;
  AzureCosmosDBStoreApi.get_nearest_matches_core := get_nearest_matches_core;
  AzureCosmosDBStoreApi.get_nearest_match_core := get_nearest_match_core;
|}.

(** [MongoClient(connection_string)] *)
Definition MongoClient_new (connection_string : string) : M World MongoClient :=
  λ w, (Ok (MongoClient_connect connection_string), connection_string :: w).

(** [AzureCosmosDBMemoryStore.create] *)
Definition create (num_lists : Z) (similarity : CosmosDBSimilarityType)
    (vector_dimensions : Z) : M World (AzureCosmosDBMemoryStore MongoStoreApi) :=
  if String.eqb cosmos_api "mongo-vcore" then
    mongoClient ← MongoClient_new cosmos_connstr;
    let apiStore := MongoStoreApi_init mongoClient in
    match ensure num_lists similarity vector_dimensions apiStore with
    | (Ok _, apiStore) =>
        let store := AzureCosmosDBMemoryStore_init apiStore in
        ret store
    | (Err e, _) => raise e
    end
  else raise NotImplementedError.

End Store.

(** The facade's methods, for an adapter of any class [S] that implements
    the API.  [str()] is the empty string. *)
Definition str : string := "".

Section Facade.

Context {S : Type} {api : AzureCosmosDBStoreApi.t S}.
Import AzureCosmosDBStoreApi.

Definition create_collection_async (collection_name : string)
    : M (AzureCosmosDBMemoryStore S) unit :=
  ret tt.

Definition get_collections_async : M (AzureCosmosDBMemoryStore S) (list string) :=
  on_store get_collections_core.

Definition delete_collection_async (collection_name : string)
    : M (AzureCosmosDBMemoryStore S) unit :=
  on_store (delete_collection_core str).

Definition does_collection_exist_async (collection_name : string)
    : M (AzureCosmosDBMemoryStore S) bool :=
  on_store (does_collection_exist_core str).

Definition upsert_async (collection_name : string) (record : MemoryRecord.t)
    : M (AzureCosmosDBMemoryStore S) string :=
  on_store (upsert_core str record).

Definition upsert_batch_async (collection_name : string)
    (records : list MemoryRecord.t) : M (AzureCosmosDBMemoryStore S) (list string) :=
  on_store (upsert_batch_core str records).

Definition get_async (collection_name : string) (key : string)
    (with_embedding : bool) : M (AzureCosmosDBMemoryStore S) MemoryRecord.t :=
  on_store (get_core str key with_embedding).

Definition get_batch_async (collection_name : string) (keys : list string)
    (with_embeddings : bool) : M (AzureCosmosDBMemoryStore S) (list MemoryRecord.t) :=
  on_store (get_batch_core str keys with_embeddings).

Definition remove_async (collection_name : string) (key : string)
    : M (AzureCosmosDBMemoryStore S) unit :=
  on_store (remove_core str key).

Definition remove_batch_async (collection_name : string) (keys : list string)
    : M (AzureCosmosDBMemoryStore S) unit :=
  on_store (remove_batch_core str keys).

Definition get_nearest_matches_async (collection_name : string)
    (embedding : ndarray) (limit : nat) (min_relevance_score : float)
    (with_embeddings : bool)
    : M (AzureCosmosDBMemoryStore S) (list (MemoryRecord.t * float)) :=
  on_store (get_nearest_matches_core str embedding limit min_relevance_score
              with_embeddings).

Definition get_nearest_match_async (collection_name : string)
    (embedding : ndarray) (min_relevance_score : float) (with_embedding : bool)
    : M (AzureCosmosDBMemoryStore S) (option (MemoryRecord.t * float)) :=
  on_store (get_nearest_match_core str embedding min_relevance_score
              with_embedding).

End Facade.

(** ** Notions of the specification *)

(** The error kinds of the specification (its section 7). *)
Inductive ErrorKind :=
| NotFound
| BackendUnavailable
| BackendOperationFailed
| UnsupportedBackend
| InvalidConfiguration.

(** The kind under which an exception of the store falls: the
    [NotImplementedError] of the factory is the unsupported backend, an error
    the database reports is a failed operation, and the exceptions of the
    language itself ([TypeError], [KeyError], [AttributeError], ..) belong to
    no kind. *)
Definition error_kind (e : exn) : option ErrorKind :=
  match e with
  | NotImplementedError => Some UnsupportedBackend
  | BulkWriteError | OperationFailure => Some BackendOperationFailed
  | _ => None
  end.

(** [math.isnan] *)
Definition isnan (x : float) : bool :=
  match x with
  | S754_nan => true
  | _ => false
  end.

(** [k in d], for a key [k] that [d] holds ([Some]) or lacks ([None]). *)
Definition present {A} (o : option A) : bool :=
  match o with
  | Some _ => true
  | None => false
  end.

(** The keys, other than ["embedding"], that a read subscripts. *)
Definition has_read_keys (d : Doc.t) : bool :=
  present (Doc.text d) && present (Doc.description d)
  && present (Doc.metadata d) && present (Doc.timestamp d).

(** All the keys a read with [with_embedding] subscripts. *)
Definition has_keys (with_embedding : bool) (d : Doc.t) : bool :=
  (negb with_embedding || present (Doc.embedding d)) && has_read_keys d.

(** The candidates that the threshold keeps: those whose score is not
    strictly less than [min_relevance_score], in the order they came. *)
Definition surviving (min_relevance_score : float) (aggs : list aggResult)
    : list aggResult :=
  List.filter (λ agg, negb (SFltb (similarityScore agg) min_relevance_score)) aggs.

(** A returned pair [(record, score)] is the candidate [agg]. *)
Definition is_candidate (p : MemoryRecord.t * float) (agg : aggResult) : Prop :=
  p.2 = similarityScore agg
  ∧ MemoryRecord.id p.1 = agg_id agg
  ∧ Some (MemoryRecord.text p.1) = Doc.text (document agg)
  ∧ Some (MemoryRecord.description p.1) = Doc.description (document agg).

(** [nearestMatch] as the specification words it: the first element of
    [nearestMatches] with [limit = 1], absent when there is none. *)
Definition nearestMatch_spec {S A} (nearestMatches : nat → M S (list A))
    : M S (option A) :=
  nearest ← nearestMatches 1%nat;
  ret (head nearest).

(** ** Sample data *)

(** An adapter that only records the collection names it is given, and
    otherwise behaves like the abstract class: every operation raises
    [NotImplementedError]. *)
Definition recording {A} (collection_name : string) : M (list string) A :=
  λ names, (Err NotImplementedError, collection_name :: names).

#[export] Instance recording_api : AzureCosmosDBStoreApi.t (list string) := {|
  AzureCosmosDBStoreApi.ensure := λ _ _ _, raise NotImplementedError;
  AzureCosmosDBStoreApi.create_collection_core := recording;
  AzureCosmosDBStoreApi.get_collections_core := raise NotImplementedError;
  AzureCosmosDBStoreApi.delete_collection_core := recording;
  AzureCosmosDBStoreApi.does_collection_exist_core := recording;
  AzureCosmosDBStoreApi.upsert_core := λ n _, recording n;
  AzureCosmosDBStoreApi.upsert_batch_core := λ n _, recording n;
  AzureCosmosDBStoreApi.get_core := λ n _ _, recording n;
  AzureCosmosDBStoreApi.get_batch_core := λ n _ _, recording n;
  AzureCosmosDBStoreApi.remove_core := λ n _, recording n;
  AzureCosmosDBStoreApi.remove_batch_core := λ n _, recording n;
  AzureCosmosDBStoreApi.get_nearest_matches_core := λ n _ _ _ _, recording n;
  AzureCosmosDBStoreApi.get_nearest_match_core := λ n _ _ _, recording n;
|}.

(** The floats 0.0, 0.5 and 1.0. *)
Definition f0 : float := S754_zero false.
Definition fhalf : float := S754_finite false 1 (-1).
Definition f1 : float := S754_finite false 1 0.

(** The first record of the integration test, without and with a
    timestamp. *)
Definition record1 : MemoryRecord.t :=
  {| MemoryRecord.id := "test_id1";
     MemoryRecord.embedding := [f0; f1; f0; f0; f0];
     MemoryRecord.text := "sample text1";
     MemoryRecord.description := "description";
     MemoryRecord.additional_metadata := "additional metadata";
     MemoryRecord.timestamp := None |}.

Definition record1_dated : MemoryRecord.t :=
  {| MemoryRecord.id := "test_id1";
     MemoryRecord.embedding := [f0; f1; f0; f0; f0];
     MemoryRecord.text := "sample text1";
     MemoryRecord.description := "description";
     MemoryRecord.additional_metadata := "additional metadata";
     MemoryRecord.timestamp := Some 1700000000000%Z |}.

(** A server with no collection, and an adapter bound to the collection
    [sk_python_container] of the database [sk_python_db]. *)
Definition empty_server : MongoClient :=
  {| is_mongos := true; collections := ∅; commands := [] |}.

Definition sample_store : MongoStoreApi :=
  {| collection := Some ("sk_python_db", "sk_python_container");
     mongoClient := empty_server |}.

(** The adapter after [record1_dated] was written. *)
Definition sample_store_dated : MongoStoreApi :=
  (upsert_core "sk_python_container" record1_dated sample_store).2.

(** A vector search that scores every document 0.5 and returns the first
    [k] documents of the collection. *)
Definition sample_search (col : Collection) (q : list float) (k : nat)
    : list (Doc.t * float) :=
  take k ((λ d, (d, fhalf)) <$> documents col).

(** The second record of the integration test, with a timestamp. *)
Definition record2_dated : MemoryRecord.t :=
  {| MemoryRecord.id := "test_id2";
     MemoryRecord.embedding := [f0; f0; f1; f0; f0];
     MemoryRecord.text := "sample text2";
     MemoryRecord.description := "description";
     MemoryRecord.additional_metadata := "additional metadata";
     MemoryRecord.timestamp := Some 1700000000001%Z |}.

(** The adapter after the two dated records were written in one batch, and
    the adapter after the record without a timestamp was written. *)
Definition sample_store_two : MongoStoreApi :=
  (upsert_batch_core "sk_python_container" [record1_dated; record2_dated]
     sample_store).2.

Definition sample_store_undated : MongoStoreApi :=
  (upsert_core "sk_python_container" record1 sample_store).2.

(** A client that fails the assertion of [ensure]. *)
Definition plain_server : MongoClient :=
  {| is_mongos := false; collections := ∅; commands := [] |}.

(** ** [cosmosdb_utils] *)

(** [cosmosdb_utils.CosmosDBVectorSearchType] *)
Inductive CosmosDBVectorSearchType := VECTOR_IVF | VECTOR_HNSW.

(** The string values of the two enumerations. *)
Definition CosmosDBSimilarityType_value (t : CosmosDBSimilarityType) : string :=
  match t with
  | COS => "COS"
  | IP => "IP"
  | L2 => "L2"
  end.

Definition CosmosDBVectorSearchType_value (t : CosmosDBVectorSearchType) : string :=
  match t with
  | VECTOR_IVF => "vector-ivf"
  | VECTOR_HNSW => "vector-hnsw"
  end.

(** [semantic_kernel.exceptions.ServiceInitializationError], with its
    message. *)
Inductive ServiceInitializationError :=
| ServiceInitializationError_of (message : string).

(** The truth value of a [str]: the empty string is false. *)
Definition truthy (s : string) : bool := negb (String.eqb s "").

(** What the constructor [MongoClient(connection_string)] does: it returns a
    client, or it raises (an [InvalidURI] for a malformed string, for
    instance); the exception is given by its name. *)
Inductive MongoClient_outcome :=
| client_of (client : MongoClient)
| constructor_raises (exception : string).

(** [get_mongodb_search_client(connection_string)]. [environ] is the
    process environment once [load_dotenv()] has run, and [os.getenv(name)]
    is [environ !! name]. The function raises a
    [ServiceInitializationError], or ends with the call
    [MongoClient(cosmos_conn_str)], whose outcome is then its own. *)
Definition get_mongodb_search_client
    (MongoClient_connect : string → MongoClient_outcome)
    (environ : gmap string string) (connection_string : string)
    : ServiceInitializationError + MongoClient_outcome :=
  let ENV_VAR_COSMOS_CONN_STR := "AZCOSMOS_CONNSTR" in
  let getenv := environ !! ENV_VAR_COSMOS_CONN_STR in
  let cosmos_conn_str : ServiceInitializationError + string :=
    if truthy connection_string then inr connection_string
    else if from_option truthy false getenv then inr (default "" getenv)
    else inl (ServiceInitializationError_of
                "Error: missing Azure Cosmos Mongo vCore Connection String") in
  match cosmos_conn_str with
  | inl e => inl e
  | inr cosmos_conn_str =>
      if truthy cosmos_conn_str then inr (MongoClient_connect cosmos_conn_str)
      else inl (ServiceInitializationError_of
                  "Error: unable to create Azure Cosmos Mongo vCore Vector DB client.")
  end.

(** ** The fixtures of the integration test *)

(** [create_embedding(non_zero_pos)]: [np.zeros(5)] with the entry of index
    [non_zero_pos - 1] set to 1.0. An index from -5 to -1 counts from the
    end, and an index outside -5 .. 4 raises [IndexError]. *)
Definition create_embedding (non_zero_pos : Z) : result ndarray :=
  let embedding := replicate 5 f0 in
  let i := (non_zero_pos - 1)%Z in
  if ((0 <=? i) && (i <? 5))%Z then Ok (<[Z.to_nat i := f1]> embedding)
  else if ((-5 <=? i) && (i <? 0))%Z then Ok (<[Z.to_nat (i + 5) := f1]> embedding)
  else Err IndexError.

(** ** Notions used by the properties *)

(** The ids of the documents of a collection, in order. *)
Definition ids_of (h : pymongo.handle) (c : MongoClient) : list string :=
  Doc._id <$> documents (pymongo.lookup_collection h c).

(** No two documents of a collection share an id. *)
Definition unique_ids (c : MongoClient) : Prop :=
  ∀ h, NoDup (ids_of h c).

(** What a read with the embedding makes of the document written for
    [record], when the record has a timestamp. *)
Definition read_back (record : MemoryRecord.t) : MemoryRecord.t :=
  MemoryRecord.local_record (MemoryRecord.id record)
    (MemoryRecord.embedding record) (MemoryRecord.text record)
    (MemoryRecord.description record) (__serialize_metadata record)
    (MemoryRecord.timestamp record).

(** A record without its timestamp: id, embedding, text, description and
    additional metadata. *)
Definition untimed (r : MemoryRecord.t)
    : string * ndarray * string * string * string :=
  (MemoryRecord.id r, MemoryRecord.embedding r, MemoryRecord.text r,
   MemoryRecord.description r, MemoryRecord.additional_metadata r).

(** The client [c'] is the client [c] with the documents [ds] added at the
    end of the collection [h], and nothing else changed. *)
Definition appended (h : pymongo.handle) (ds : list Doc.t) (c c' : MongoClient)
    : Prop :=
  documents (pymongo.lookup_collection h c')
  = (documents (pymongo.lookup_collection h c) ++ ds)%list
  ∧ indexes (pymongo.lookup_collection h c')
    = indexes (pymongo.lookup_collection h c)
  ∧ (∀ h', h ≠ h' → collections c' !! h' = collections c !! h')
  ∧ is_mongos c' = is_mongos c
  ∧ commands c' = commands c.

(** The document has every key a read with [with_embedding] subscripts,
    except ["timestamp"]. *)
Definition lacks_only_timestamp (with_embedding : bool) (d : Doc.t) : bool :=
  (negb with_embedding || present (Doc.embedding d))
  && present (Doc.text d) && present (Doc.description d)
  && present (Doc.metadata d) && negb (present (Doc.timestamp d)).

(** Two strings differ at a position that both have. *)
Fixpoint mismatch (s1 s2 : string) : bool :=
  match s1, s2 with
  | String a s1', String b s2' => if Ascii.eqb a b then mismatch s1' s2' else true
  | _, _ => false
  end.

(** * Properties *)

(** ** The monad *)

(** Runs the monadic glue of a computation applied to a state. *)
Ltac run_monad :=
  repeat progress
    (unfold mbind, M_bind, bind, mret, M_ret, ret, raise, get_state, put_state;
     simpl).

Lemma bind_ok {S A B} (m : M S A) (k : A → M S B) s a s' :
  m s = (Ok a, s') → (m ≫= k) s = k a s'.
Proof. intros E. unfold mbind, M_bind, bind. by rewrite E. Qed.

Lemma bind_err {S A B} (m : M S A) (k : A → M S B) s e s' :
  m s = (Err e, s') → (m ≫= k) s = (Err e, s').
Proof. intros E. unfold mbind, M_bind, bind. by rewrite E. Qed.

Lemma bind_inv_ok {S A B} (m : M S A) (k : A → M S B) s b s2 :
  (m ≫= k) s = (Ok b, s2) → ∃ a s1, m s = (Ok a, s1) ∧ k a s1 = (Ok b, s2).
Proof.
  unfold mbind, M_bind, bind. destruct (m s) as [[a|e] s1]; [eauto | discriminate].
Qed.

Lemma self_collection_bound attr self h :
  collection self = Some h → self_collection attr self = (Ok h, self).
Proof. intros E. unfold self_collection. by rewrite E. Qed.

Lemma self_collection_inv attr self h self' :
  self_collection attr self = (Ok h, self') → collection self = Some h ∧ self' = self.
Proof.
  unfold self_collection. destruct (collection self); intros [=]; by subst.
Qed.

(** ** Collection names (C10) *)

Lemma elem_of_list_collection_names db coll c :
  coll ∈ pymongo.list_collection_names db c ↔ is_Some (collections c !! (db, coll)).
Proof.
  unfold pymongo.list_collection_names. rewrite list_elem_of_fmap. split.
  - intros [[db' coll'] [-> Hin]]. apply list_elem_of_filter in Hin as [Hdb Hin].
    simpl in Hdb. subst db'. apply list_elem_of_fmap in Hin as [[h col] [Hh Hin]].
    simpl in Hh. subst h. apply elem_of_map_to_list in Hin. eauto.
  - intros [col Hcol]. exists (db, coll). split; [done|].
    apply list_elem_of_filter. split; [done|].
    apply list_elem_of_fmap. exists ((db, coll), col). split; [done|].
    by apply elem_of_map_to_list.
Qed.

(** C10. The answer of [does_collection_exist_core] does not depend on its
    [collection_name] argument: for any two names and the same adapter and
    database state it returns the same outcome, which tells whether the
    container configured at load time ([cosmos_container_name]) is among the
    collections of the configured database. *)
Theorem does_collection_exist_core_ignores_name
    (cosmos_database_name cosmos_container_name name1 name2 : string)
    (self : MongoStoreApi) :
  does_collection_exist_core cosmos_database_name cosmos_container_name name1 self
  = does_collection_exist_core cosmos_database_name cosmos_container_name name2 self
  ∧ does_collection_exist_core cosmos_database_name cosmos_container_name name1 self
    = (Ok (bool_decide
             (is_Some (collections (mongoClient self)
                         !! (cosmos_database_name, cosmos_container_name)))),
       self).
Proof.
  split; [reflexivity|].
  unfold does_collection_exist_core. run_monad. f_equal. f_equal.
  apply bool_decide_ext, elem_of_list_collection_names.
Qed.

(** ** The facade (C1) *)

(** C1, as the code has it. Every facade method forwards to the operation of
    the same name of the adapter it holds, with the arguments other than the
    collection name unchanged; in place of the collection name it received it
    passes [str()], the empty string. *)
Theorem facade_forwards_with_empty_name {S} (api : AzureCosmosDBStoreApi.t S)
    (self : AzureCosmosDBMemoryStore S) (collection_name key : string)
    (keys : list string) (record : MemoryRecord.t) (records : list MemoryRecord.t)
    (embedding : ndarray) (limit : nat) (min_relevance_score : float)
    (with_embedding : bool) :
  delete_collection_async collection_name self
  = on_store (AzureCosmosDBStoreApi.delete_collection_core "") self
  ∧ does_collection_exist_async collection_name self
    = on_store (AzureCosmosDBStoreApi.does_collection_exist_core "") self
  ∧ upsert_async collection_name record self
    = on_store (AzureCosmosDBStoreApi.upsert_core "" record) self
  ∧ upsert_batch_async collection_name records self
    = on_store (AzureCosmosDBStoreApi.upsert_batch_core "" records) self
  ∧ get_async collection_name key with_embedding self
    = on_store (AzureCosmosDBStoreApi.get_core "" key with_embedding) self
  ∧ get_batch_async collection_name keys with_embedding self
    = on_store (AzureCosmosDBStoreApi.get_batch_core "" keys with_embedding) self
  ∧ remove_async collection_name key self
    = on_store (AzureCosmosDBStoreApi.remove_core "" key) self
  ∧ remove_batch_async collection_name keys self
    = on_store (AzureCosmosDBStoreApi.remove_batch_core "" keys) self
  ∧ get_nearest_matches_async collection_name embedding limit
      min_relevance_score with_embedding self
    = on_store (AzureCosmosDBStoreApi.get_nearest_matches_core "" embedding limit
                  min_relevance_score with_embedding) self
  ∧ get_nearest_match_async collection_name embedding min_relevance_score
      with_embedding self
    = on_store (AzureCosmosDBStoreApi.get_nearest_match_core "" embedding
                  min_relevance_score with_embedding) self.
Proof. repeat split. Qed.

(** C1 as stated fails: asked to upsert into the collection ["memories"],
    the facade hands the adapter the name [""], so its call differs from a
    forward of the name it received. *)
Lemma facade_drops_collection_name :
  upsert_async "memories" record1 (AzureCosmosDBMemoryStore_init [])
  = (Err NotImplementedError, AzureCosmosDBMemoryStore_init [""])
  ∧ upsert_async "memories" record1 (AzureCosmosDBMemoryStore_init [])
    ≠ on_store (AzureCosmosDBStoreApi.upsert_core "memories" record1)
        (AzureCosmosDBMemoryStore_init []).
Proof. split; [reflexivity | discriminate]. Qed.

(** ** The factory (C8) *)

(** C8. For a backend kind [cosmos_api] other than ["mongo-vcore"], [create]
    raises [NotImplementedError], the unsupported-backend error, and leaves
    the world as it was: no client and no adapter is constructed. *)
Theorem create_unsupported_backend (cosmos_api cosmos_connstr : string)
    (cosmos_database_name cosmos_container_name : string)
    (MongoClient_connect : string → MongoClient)
    (num_lists : Z) (similarity : CosmosDBSimilarityType) (vector_dimensions : Z)
    (w : World) :
  cosmos_api ≠ "mongo-vcore" →
  create cosmos_api cosmos_connstr cosmos_database_name cosmos_container_name
    MongoClient_connect num_lists similarity vector_dimensions w
  = (Err NotImplementedError, w)
  ∧ error_kind NotImplementedError = Some UnsupportedBackend.
Proof.
  intros Hne. split; [|reflexivity]. unfold create.
  destruct (String.eqb_spec cosmos_api "mongo-vcore") as [->|_]; [done|reflexivity].
Qed.

Lemma create_unsupported_backend_witness :
  create "nosql" "mongodb://localhost" "sk_python_db" "sk_python_container"
    (λ _, empty_server) 100 COS 1536 []
  = (Err NotImplementedError, [])
  ∧ error_kind NotImplementedError = Some UnsupportedBackend.
Proof.
  apply (create_unsupported_backend "nosql" "mongodb://localhost" "sk_python_db"
           "sk_python_container" (λ _, empty_server) 100 COS 1536 []).
  discriminate.
Defined.

(** ** Nearest match (C5) *)

(** C5. [get_nearest_match_core] is [nearestMatch] of the specification over
    [get_nearest_matches_core] with the same remaining arguments: it returns
    the first element of the result for [limit = 1], returns [None] (and
    raises nothing) when that result is empty, and raises what
    [get_nearest_matches_core] raises. *)
Theorem get_nearest_match_core_refines_spec
    (cosmosSearch : Collection → list float → nat → list (Doc.t * float))
    (collection_name : string) (embedding : ndarray) (min_relevance_score : float)
    (with_embedding : bool) (self : MongoStoreApi) :
  get_nearest_match_core cosmosSearch collection_name embedding
    min_relevance_score with_embedding self
  = nearestMatch_spec
      (λ limit, get_nearest_matches_core cosmosSearch collection_name embedding
                  limit min_relevance_score with_embedding) self.
Proof.
  unfold get_nearest_match_core, nearestMatch_spec.
  destruct (get_nearest_matches_core cosmosSearch collection_name embedding 1
              min_relevance_score with_embedding self) as [[nearest|e] self'] eqn:E.
  - rewrite !(bind_ok _ _ _ _ _ E). by destruct nearest.
  - by rewrite !(bind_err _ _ _ _ _ E).
Qed.

(** ** Reading a document *)

Ltac destruct_doc d :=
  let e := fresh "e" in
  destruct d as [? [e|] [?|] [?|] [?|] [?|]].

Lemma record_of_document_ok {S} id w d (s : S) :
  has_keys w d = true →
  ∃ r, record_of_document id w d s = (Ok r, s)
       ∧ MemoryRecord.id r = id
       ∧ MemoryRecord.embedding r = (if w then default [] (Doc.embedding d) else [])
       ∧ Some (MemoryRecord.text r) = Doc.text d
       ∧ Some (MemoryRecord.description r) = Doc.description d
       ∧ Some (MemoryRecord.additional_metadata r) = Doc.metadata d
       ∧ MemoryRecord.timestamp r = Doc.timestamp d.
Proof.
  destruct_doc d; destruct w; try discriminate; intros _;
    eexists; (split; [reflexivity|]); repeat split.
Qed.

Lemma record_of_document_inv {S} id w d (s s' : S) r :
  record_of_document id w d s = (Ok r, s') →
  s' = s ∧ MemoryRecord.id r = id ∧ (w = false → MemoryRecord.embedding r = []).
Proof.
  destruct_doc d; destruct w; try discriminate; intros [= <- <-]; by repeat split.
Qed.

Lemma record_of_document_no_timestamp {S} id w d (s : S) :
  has_keys w
    (Doc.mk (Doc._id d) (Doc.embedding d) (Doc.text d) (Doc.description d)
       (Doc.metadata d) (Some 0%Z)) = true →
  Doc.timestamp d = None →
  record_of_document id w d s = (Err (KeyError "timestamp"), s).
Proof.
  destruct_doc d; destruct w; try discriminate; reflexivity.
Qed.

Lemma has_keys_without_embedding d :
  has_keys false (Doc.without_embedding d) = has_read_keys d.
Proof. reflexivity. Qed.

Lemma for_each_record_ok {S} w (ds : list Doc.t) (s : S) :
  Forall (λ d, has_keys w d = true) ds →
  ∃ rs, for_each (λ d, record_of_document (Doc._id d) w d) ds s = (Ok rs, s)
        ∧ length rs = length ds
        ∧ Forall (λ r, w = false → MemoryRecord.embedding r = []) rs.
Proof.
  induction 1 as [|d ds Hd _ (rs & E & Hlen & Hrs)]; simpl.
  - by exists [].
  - destruct (record_of_document_ok (Doc._id d) w d s Hd) as (r & Er & _).
    exists (r :: rs). rewrite (bind_ok _ _ _ _ _ Er), (bind_ok _ _ _ _ _ E).
    split; [reflexivity|]. split; [simpl; by f_equal|].
    constructor; [|done]. by apply (record_of_document_inv _ _ _ _ _ _ Er).
Qed.

Lemma for_each_record_inv {S} (ds : list Doc.t) (s s' : S) rs :
  for_each (λ d, record_of_document (Doc._id d) false d) ds s = (Ok rs, s') →
  Forall (λ r, MemoryRecord.embedding r = []) rs.
Proof.
  revert s s' rs. induction ds as [|d ds IH]; simpl; intros s s' rs E.
  - injection E as <- _. constructor.
  - apply bind_inv_ok in E as (r & s1 & Er & E).
    apply bind_inv_ok in E as (rs' & s2 & Ers & E).
    injection E as <- _. constructor.
    + by apply (record_of_document_inv _ _ _ _ _ _ Er).
    + by apply (IH s1 s2).
Qed.

(** ** The adapter's reads *)

Lemma get_core_bound collection_name key w self h :
  collection self = Some h →
  get_core collection_name key w self
  = record_of_result w (pymongo.find_one h key (negb w) (mongoClient self)) self.
Proof.
  intros Hh. unfold get_core.
  by rewrite (bind_ok _ _ _ _ _ (self_collection_bound _ _ _ Hh)).
Qed.

Lemma get_core_inv collection_name key w self r self' :
  get_core collection_name key w self = (Ok r, self') →
  ∃ h d, collection self = Some h
         ∧ pymongo.find_one h key (negb w) (mongoClient self) = Some d
         ∧ record_of_document (Doc._id d) w d self = (Ok r, self').
Proof.
  unfold get_core. intros E.
  apply bind_inv_ok in E as (h & s1 & Eh & E).
  apply self_collection_inv in Eh as [Hh ->].
  revert E. run_monad.
  destruct (pymongo.find_one h key (negb w) (mongoClient self)) as [d|] eqn:Ef;
    [eauto | discriminate].
Qed.

Lemma get_batch_core_bound collection_name keys w self h :
  collection self = Some h →
  get_batch_core collection_name keys w self
  = for_each (λ d, record_of_document (Doc._id d) w d)
      (pymongo.find h keys (negb w) (mongoClient self)) self.
Proof.
  intros Hh. unfold get_batch_core.
  by rewrite (bind_ok _ _ _ _ _ (self_collection_bound _ _ _ Hh)).
Qed.

Lemma get_batch_core_inv collection_name keys w self rs self' :
  get_batch_core collection_name keys w self = (Ok rs, self') →
  ∃ h, collection self = Some h
       ∧ for_each (λ d, record_of_document (Doc._id d) w d)
           (pymongo.find h keys (negb w) (mongoClient self)) self = (Ok rs, self').
Proof.
  unfold get_batch_core. intros E.
  apply bind_inv_ok in E as (h & s1 & Eh & E).
  apply self_collection_inv in Eh as [Hh ->]. eauto.
Qed.

Lemma find_one_projection h key c d :
  pymongo.find_one h key false c = Some d →
  pymongo.find_one h key true c = Some (Doc.without_embedding d).
Proof.
  unfold pymongo.find_one.
  destruct (head _) as [d'|]; simpl; [|discriminate]. by intros [= ->].
Qed.

Lemma find_projection h keys c :
  pymongo.find h keys true c = Doc.without_embedding <$> pymongo.find h keys false c.
Proof.
  unfold pymongo.find. simpl. by rewrite list_fmap_id.
Qed.

Lemma find_one_id h key p c d :
  pymongo.find_one h key p c = Some d → Doc._id d = key.
Proof.
  unfold pymongo.find_one.
  destruct (List.filter _ _) as [|d' l] eqn:E; simpl; [discriminate|].
  intros [= <-].
  assert (In d' (List.filter (pymongo.has_id key)
                   (documents (pymongo.lookup_collection h c)))) as Hin
    by (rewrite E; by left).
  apply filter_In in Hin as [_ Hid]. unfold pymongo.has_id in Hid.
  apply String.eqb_eq in Hid. by destruct p.
Qed.

Lemma find_one_missing h key p c :
  Forall (λ d, Doc._id d ≠ key) (documents (pymongo.lookup_collection h c)) →
  pymongo.find_one h key p c = None.
Proof.
  unfold pymongo.find_one. intros Hall.
  induction Hall as [|d ds Hd _ IH]; simpl; [done|].
  unfold pymongo.has_id at 1. by destruct (String.eqb_spec (Doc._id d) key).
Qed.

(** What a read that does not ask for the embedding returns, when it
    returns: any record [get_core] returns, and every element of what
    [get_batch_core] returns, has the embedding [[]], whatever embedding the
    stored document holds; and they do return for a stored document (for
    stored documents) carrying the keys that a read subscripts, the key
    ["timestamp"] among them. *)
Theorem read_without_embedding_is_empty (collection_name key : string)
    (keys : list string) (self : MongoStoreApi) :
  (∀ r self', get_core collection_name key false self = (Ok r, self') →
              MemoryRecord.embedding r = [])
  ∧ (∀ rs self', get_batch_core collection_name keys false self = (Ok rs, self') →
                 Forall (λ r, MemoryRecord.embedding r = []) rs)
  ∧ (∀ h d, collection self = Some h →
            pymongo.find_one h key false (mongoClient self) = Some d →
            has_read_keys d = true →
            ∃ r, get_core collection_name key false self = (Ok r, self)
                 ∧ MemoryRecord.id r = key
                 ∧ MemoryRecord.embedding r = [])
  ∧ (∀ h, collection self = Some h →
          Forall (λ d, has_read_keys d = true)
            (pymongo.find h keys false (mongoClient self)) →
          ∃ rs, get_batch_core collection_name keys false self = (Ok rs, self)
                ∧ length rs = length (pymongo.find h keys false (mongoClient self))
                ∧ Forall (λ r, MemoryRecord.embedding r = []) rs).
Proof.
  repeat split.
  - intros r self' E. apply get_core_inv in E as (h & d & _ & _ & E).
    by apply (record_of_document_inv _ _ _ _ _ _ E).
  - intros rs self' E. apply get_batch_core_inv in E as (h & _ & E).
    by apply for_each_record_inv in E.
  - intros h d Hh Hd Hkeys. rewrite (get_core_bound _ _ _ _ _ Hh). simpl.
    rewrite (find_one_projection _ _ _ _ Hd). simpl.
    destruct (record_of_document_ok (S:=MongoStoreApi) (Doc._id d) false
                (Doc.without_embedding d) self) as (r & E & Hid & Hemb & _).
    { by rewrite has_keys_without_embedding. }
    exists r. repeat split; [done | | done].
    rewrite Hid. by apply (find_one_id _ _ _ _ _ Hd).
  - intros h Hh Hall. rewrite (get_batch_core_bound _ _ _ _ _ Hh). simpl.
    rewrite find_projection.
    destruct (for_each_record_ok (S:=MongoStoreApi) false
                (Doc.without_embedding <$> pymongo.find h keys false (mongoClient self))
                self) as (rs & E & Hlen & Hrs).
    { apply Forall_fmap. eapply Forall_impl; [exact Hall|]. by intros d Hd. }
    exists rs. split; [done|]. split; [by rewrite Hlen, length_fmap|].
    eapply Forall_impl; [exact Hrs|]. simpl. auto.
Qed.

Lemma read_without_embedding_is_empty_witness :
  ∃ r, get_core "sk_python_container" "test_id1" false sample_store_dated
       = (Ok r, sample_store_dated)
       ∧ MemoryRecord.id r = "test_id1"
       ∧ MemoryRecord.embedding r = [].
Proof.
  apply (proj1 (proj2 (proj2
           (read_without_embedding_is_empty "sk_python_container" "test_id1"
              ["test_id1"] sample_store_dated)))
           ("sk_python_db", "sk_python_container") (cosmosRecord record1_dated)).
  - reflexivity.
  - vm_compute. reflexivity.
  - reflexivity.
Defined.

(** C7. The code fails the property for a record stored without a
    timestamp: after the first record of the integration test (which has no
    timestamp) was upserted, [get_core] on its id and [get_batch_core] on its
    id, both with [with_embedding = False], return no record with an empty
    embedding but raise [KeyError] for the key ["timestamp"], which the write
    did not store. *)
Theorem read_without_embedding_raises_without_timestamp :
  MemoryRecord.timestamp record1 = None
  ∧ upsert_core "sk_python_container" record1 sample_store
    = (Ok "test_id1", sample_store_undated)
  ∧ get_core "sk_python_container" "test_id1" false sample_store_undated
    = (Err (KeyError "timestamp"), sample_store_undated)
  ∧ get_batch_core "sk_python_container" ["test_id1"] false sample_store_undated
    = (Err (KeyError "timestamp"), sample_store_undated).
Proof. repeat split; vm_compute; reflexivity. Qed.

(** ** Writing a record *)

Lemma cosmosRecord_id r : Doc._id (cosmosRecord r) = MemoryRecord.id r.
Proof. unfold cosmosRecord. by destruct (MemoryRecord.timestamp r). Qed.

Lemma cosmosRecord_timestamp r :
  Doc.timestamp (cosmosRecord r) = MemoryRecord.timestamp r.
Proof. unfold cosmosRecord. by destruct (MemoryRecord.timestamp r). Qed.

Lemma filter_has_id_fresh key ds d :
  existsb (pymongo.has_id key) ds = false →
  pymongo.has_id key d = true →
  List.filter (pymongo.has_id key) (ds ++ [d]) = [d].
Proof.
  intros Hfresh Hd. induction ds as [|d' ds IH]; simpl in *.
  - by rewrite Hd.
  - apply orb_false_iff in Hfresh as [-> Hfresh]. by apply IH.
Qed.

Lemma insert_one_inv h d c c' :
  pymongo.insert_one h d c = (Ok (), c') →
  pymongo.find_one h (Doc._id d) false c' = Some d.
Proof.
  unfold pymongo.insert_one.
  destruct (existsb _ _) eqn:Hfresh; [discriminate|]. intros [= <-].
  unfold pymongo.find_one, pymongo.lookup_collection at 1. simpl.
  rewrite lookup_insert_eq. simpl.
  rewrite (filter_has_id_fresh _ _ _ Hfresh); [done|].
  unfold pymongo.has_id. apply String.eqb_refl.
Qed.

Lemma insert_one_fresh h d c :
  existsb (pymongo.has_id (Doc._id d))
    (documents (pymongo.lookup_collection h c)) = false →
  ∃ c', pymongo.insert_one h d c = (Ok (), c').
Proof. intros Hfresh. unfold pymongo.insert_one. rewrite Hfresh. eauto. Qed.

Lemma upsert_core_bound collection_name record self h :
  collection self = Some h →
  upsert_core collection_name record self
  = match pymongo.insert_one h (cosmosRecord record) (mongoClient self) with
    | (Ok _, c) => (Ok (MemoryRecord.id record),
                    {| collection := Some h; mongoClient := c |})
    | (Err e, c) => (Err e, {| collection := Some h; mongoClient := c |})
    end.
Proof.
  intros Hh. unfold upsert_core, upsert_batch_core.
  destruct self as [o c]. simpl in Hh. subst o.
  unfold pymongo.insert_many, on_client, self_collection. run_monad.
  destruct (pymongo.insert_one h (cosmosRecord record) c) as [[[]|e] c']; simpl;
    [|done].
  by rewrite cosmosRecord_id.
Qed.

Lemma upsert_core_inv collection_name record self doc_id self1 :
  upsert_core collection_name record self = (Ok doc_id, self1) →
  doc_id = MemoryRecord.id record
  ∧ ∃ h, collection self = Some h
         ∧ collection self1 = Some h
         ∧ pymongo.find_one h (MemoryRecord.id record) false (mongoClient self1)
           = Some (cosmosRecord record).
Proof.
  intros E. destruct (collection self) as [h|] eqn:Hh.
  - rewrite (upsert_core_bound _ _ _ _ Hh) in E.
    destruct (pymongo.insert_one h (cosmosRecord record) (mongoClient self))
      as [[[]|e] c'] eqn:Ei; [|discriminate].
    injection E as <- <-. split; [done|]. exists h. repeat split.
    rewrite <- cosmosRecord_id. by apply (insert_one_inv _ _ _ _ Ei).
  - revert E. unfold upsert_core, upsert_batch_core, self_collection.
    run_monad. by rewrite Hh.
Qed.

(** ** A lookup that misses (C3) *)

(** C3, as the code has it. For an adapter bound to a collection in which no
    document has the id [key], [get_core] fails, and the state is unchanged;
    the failure is the [TypeError] raised by subscripting the [None] that
    [find_one] returned, which belongs to no error kind of the specification:
    the store has no exception for a missing document. *)
Theorem get_core_missing_id (collection_name key : string) (with_embedding : bool)
    (self : MongoStoreApi) (h : pymongo.handle) :
  collection self = Some h →
  Forall (λ d, Doc._id d ≠ key)
    (documents (pymongo.lookup_collection h (mongoClient self))) →
  get_core collection_name key with_embedding self
  = (Err TypeError_not_subscriptable, self)
  ∧ error_kind TypeError_not_subscriptable = None
  ∧ ∀ e, error_kind e ≠ Some NotFound.
Proof.
  intros Hh Hmiss. rewrite (get_core_bound _ _ _ _ _ Hh).
  rewrite (find_one_missing _ _ _ _ Hmiss). repeat split. by intros [].
Qed.

Lemma get_core_missing_id_witness :
  get_core "sk_python_container" "test_id2" true sample_store_dated
  = (Err TypeError_not_subscriptable, sample_store_dated)
  ∧ error_kind TypeError_not_subscriptable = None
  ∧ ∀ e, error_kind e ≠ Some NotFound.
Proof.
  apply (get_core_missing_id "sk_python_container" "test_id2" true
           sample_store_dated ("sk_python_db", "sk_python_container")).
  - reflexivity.
  - vm_compute. repeat constructor. discriminate.
Defined.

(** C3 as stated fails: looking up an id that no document of the collection
    has does not fail with an error of the kind [NotFound]. *)
Lemma get_core_missing_id_is_not_NotFound :
  ¬ ∃ e self',
      get_core "sk_python_container" "test_id2" true sample_store_dated
      = (Err e, self')
      ∧ error_kind e = Some NotFound.
Proof.
  intros (e & self' & E & Hkind). vm_compute in E.
  injection E as <- _. discriminate.
Qed.

(** ** A record without a timestamp (C9) *)

(** C9. The document written for a record has the key ["timestamp"] exactly
    when the record has a timestamp; so after a record without a timestamp
    was upserted, [get_core] on its id, with or without the embedding, raises
    [KeyError] for the key ["timestamp"] instead of returning a record. *)
Theorem get_core_after_upsert_without_timestamp
    (collection_name collection_name' : string) (record : MemoryRecord.t)
    (with_embedding : bool) (self self1 : MongoStoreApi) (doc_id : string) :
  MemoryRecord.timestamp record = None →
  upsert_core collection_name record self = (Ok doc_id, self1) →
  get_core collection_name' (MemoryRecord.id record) with_embedding self1
  = (Err (KeyError "timestamp"), self1)
  ∧ ∀ record', present (Doc.timestamp (cosmosRecord record'))
               = present (MemoryRecord.timestamp record').
Proof.
  intros Hts E. split; [|intros r'; by rewrite cosmosRecord_timestamp].
  apply upsert_core_inv in E as (_ & h & _ & Hh & Hfind).
  rewrite (get_core_bound _ _ _ _ _ Hh).
  assert (pymongo.find_one h (MemoryRecord.id record) (negb with_embedding)
            (mongoClient self1)
          = Some (pymongo.apply_projection (negb with_embedding)
                    (cosmosRecord record))) as ->.
  { destruct with_embedding; simpl; [done|]. by apply find_one_projection. }
  simpl. apply record_of_document_no_timestamp.
  - unfold cosmosRecord. rewrite Hts. by destruct with_embedding.
  - destruct with_embedding; simpl; by rewrite cosmosRecord_timestamp.
Qed.

Lemma get_core_after_upsert_without_timestamp_witness :
  get_core "sk_python_container" "test_id1" true
    (upsert_core "sk_python_container" record1 sample_store).2
  = (Err (KeyError "timestamp"),
     (upsert_core "sk_python_container" record1 sample_store).2)
  ∧ ∀ record', present (Doc.timestamp (cosmosRecord record'))
               = present (MemoryRecord.timestamp record').
Proof.
  apply (get_core_after_upsert_without_timestamp "sk_python_container"
           "sk_python_container" record1 true sample_store
           (upsert_core "sk_python_container" record1 sample_store).2 "test_id1").
  - reflexivity.
  - vm_compute. reflexivity.
Defined.

(** ** The serialized metadata *)

Lemma length_append (s1 s2 : string) :
  String.length (s1 ++ s2) = (String.length s1 + String.length s2)%nat.
Proof. induction s1 as [|c s1 IH]; simpl; [done | by rewrite IH]. Qed.

Lemma length_escape c : (1 ≤ String.length (json.escape c))%nat.
Proof.
  unfold json.escape.
  repeat match goal with |- context [if ?b then _ else _] => destruct b end;
    simpl; lia.
Qed.

Lemma length_escape_all s :
  (String.length s ≤ String.length (json.escape_all s))%nat.
Proof.
  induction s as [|c s IH]; simpl; [done|].
  rewrite length_append. pose proof (length_escape c). lia.
Qed.

(** The serialized metadata is strictly longer than the
    [additional_metadata] it embeds. *)
Lemma length_serialize_metadata r :
  (String.length (MemoryRecord.additional_metadata r)
   < String.length (__serialize_metadata r))%nat.
Proof.
  unfold __serialize_metadata, json.dumps, json.dumps_items, json.dumps_opt_str.
  unfold json.quoted at 6.
  repeat (rewrite length_append || simpl String.length).
  pose proof (length_escape_all (MemoryRecord.additional_metadata r)). lia.
Qed.

Lemma serialize_metadata_differs r :
  __serialize_metadata r ≠ MemoryRecord.additional_metadata r.
Proof.
  intros E. pose proof (length_serialize_metadata r) as H. rewrite E in H. lia.
Qed.

(** ** Write then read (C2) *)

(** C2, as the code has it. After a record that carries a timestamp was
    upserted, [get_core] on its id with the embedding returns a record equal
    to it in id, text, description and embedding; its [additional_metadata]
    is the serialized field the write built from text, description and
    additional metadata, which the read does not unpack and which is never
    the [additional_metadata] that was written. *)
Theorem upsert_then_get_round_trip
    (collection_name collection_name' : string) (record : MemoryRecord.t)
    (ts : datetime) (self self1 : MongoStoreApi) (doc_id : string) :
  MemoryRecord.timestamp record = Some ts →
  upsert_core collection_name record self = (Ok doc_id, self1) →
  doc_id = MemoryRecord.id record
  ∧ ∃ r, get_core collection_name' (MemoryRecord.id record) true self1
         = (Ok r, self1)
         ∧ MemoryRecord.id r = MemoryRecord.id record
         ∧ MemoryRecord.text r = MemoryRecord.text record
         ∧ MemoryRecord.description r = MemoryRecord.description record
         ∧ MemoryRecord.embedding r = MemoryRecord.embedding record
         ∧ MemoryRecord.additional_metadata r = __serialize_metadata record
         ∧ MemoryRecord.additional_metadata r
           ≠ MemoryRecord.additional_metadata record.
Proof.
  intros Hts E. apply upsert_core_inv in E as (-> & h & _ & Hh & Hfind).
  split; [done|]. rewrite (get_core_bound _ _ _ _ _ Hh). simpl. rewrite Hfind.
  simpl. rewrite cosmosRecord_id. unfold cosmosRecord. rewrite Hts.
  eexists. split; [reflexivity|]. simpl. repeat split.
  apply serialize_metadata_differs.
Qed.

Lemma upsert_then_get_round_trip_witness :
  "test_id1" = MemoryRecord.id record1_dated
  ∧ ∃ r, get_core "sk_python_container" (MemoryRecord.id record1_dated) true
           sample_store_dated
         = (Ok r, sample_store_dated)
         ∧ MemoryRecord.id r = MemoryRecord.id record1_dated
         ∧ MemoryRecord.text r = MemoryRecord.text record1_dated
         ∧ MemoryRecord.description r = MemoryRecord.description record1_dated
         ∧ MemoryRecord.embedding r = MemoryRecord.embedding record1_dated
         ∧ MemoryRecord.additional_metadata r = __serialize_metadata record1_dated
         ∧ MemoryRecord.additional_metadata r
           ≠ MemoryRecord.additional_metadata record1_dated.
Proof.
  apply (upsert_then_get_round_trip "sk_python_container" "sk_python_container"
           record1_dated 1700000000000%Z sample_store sample_store_dated "test_id1").
  - reflexivity.
  - vm_compute. reflexivity.
Defined.

(** C2 as stated fails: the record read back after the first record of the
    test was upserted (with a timestamp and a non-empty embedding) does not
    have the additional metadata that was written. *)
Lemma upsert_then_get_changes_metadata :
  ∃ r, get_core "sk_python_container" "test_id1" true
         (upsert_core "sk_python_container" record1_dated sample_store).2
       = (Ok r, (upsert_core "sk_python_container" record1_dated sample_store).2)
       ∧ MemoryRecord.embedding record1_dated ≠ []
       ∧ MemoryRecord.additional_metadata record1_dated = "additional metadata"
       ∧ MemoryRecord.additional_metadata r
         = __serialize_metadata record1_dated
       ∧ MemoryRecord.additional_metadata r
         ≠ MemoryRecord.additional_metadata record1_dated.
Proof.
  eexists. split; [vm_compute; reflexivity|].
  repeat split; discriminate.
Qed.

(** ** Provisioning the index (C6) *)

Lemma index_information_new_collection h c :
  collections c !! h = None →
  indexes (pymongo.lookup_collection h c) !! "embedding_cosmosSearch" = None.
Proof. intros E. unfold pymongo.lookup_collection. by rewrite E. Qed.

Lemma index_information_lookup h c :
  pymongo.index_information h c !! "embedding_cosmosSearch" = None →
  indexes (pymongo.lookup_collection h c) !! "embedding_cosmosSearch" = None.
Proof.
  unfold pymongo.index_information, pymongo.lookup_collection.
  by destruct (collections c !! h).
Qed.

(** With the index there, [ensure] sends no command and changes nothing but
    the binding of the handle. *)
Lemma ensure_index_present db coll num_lists similarity vector_dimensions self :
  is_mongos (mongoClient self) = true →
  is_Some (pymongo.index_information (db, coll) (mongoClient self)
             !! "embedding_cosmosSearch") →
  ensure db coll num_lists similarity vector_dimensions self
  = (Ok (), {| collection := Some (db, coll); mongoClient := mongoClient self |}).
Proof.
  intros Hm [info Hinfo]. unfold ensure. run_monad. by rewrite Hm, Hinfo.
Qed.

(** C6. On a client for which the assertion of [ensure] holds, [ensure]
    succeeds and leaves the index ["embedding_cosmosSearch"] in place; any
    further call, with the same or with other parameters, succeeds and
    changes nothing at all (no index is added and no command is sent); and
    the first call itself sends no command when the index was already there,
    and exactly one [createIndexes] command when it was not. *)
Theorem ensure_idempotent (cosmos_database_name cosmos_container_name : string)
    (num_lists : Z) (similarity : CosmosDBSimilarityType) (vector_dimensions : Z)
    (self : MongoStoreApi) :
  is_mongos (mongoClient self) = true →
  ∃ self1,
    ensure cosmos_database_name cosmos_container_name num_lists similarity
      vector_dimensions self = (Ok (), self1)
    ∧ (∀ num_lists' similarity' vector_dimensions',
         ensure cosmos_database_name cosmos_container_name num_lists' similarity'
           vector_dimensions' self1 = (Ok (), self1))
    ∧ is_Some (pymongo.index_information
                 (cosmos_database_name, cosmos_container_name) (mongoClient self1)
                 !! "embedding_cosmosSearch")
    ∧ (is_Some (pymongo.index_information
                  (cosmos_database_name, cosmos_container_name) (mongoClient self)
                  !! "embedding_cosmosSearch") →
       mongoClient self1 = mongoClient self)
    ∧ (pymongo.index_information
         (cosmos_database_name, cosmos_container_name) (mongoClient self)
         !! "embedding_cosmosSearch" = None →
       commands (mongoClient self1)
       = createIndexes cosmos_database_name cosmos_container_name
           [ {| name := "embedding_cosmosSearch";
                key := ("embedding", "cosmosSearch");
                options := {| kind := "vector-ivf"; numLists := num_lists;
                              similarity := similarity;
                              dimensions := vector_dimensions |} |} ]
           :: commands (mongoClient self)).
Proof.
  intros Hm.
  destruct (pymongo.index_information
              (cosmos_database_name, cosmos_container_name) (mongoClient self)
              !! "embedding_cosmosSearch") as [info|] eqn:Hinfo.
  - (* the index is there *)
    eexists. split; [by apply ensure_index_present|]. simpl.
    split; [|split; [by rewrite Hinfo|split; [done|discriminate]]].
    intros n' s' d'. by rewrite ensure_index_present.
  - (* the index is created *)
    pose proof (index_information_lookup _ _ Hinfo) as Hcol.
    unfold ensure at 1. run_monad. rewrite Hm, Hinfo.
    unfold on_client, pymongo.command_createIndexes, pymongo.create_index.
    run_monad.
    unfold pymongo.lookup_collection in *. simpl. rewrite Hcol. simpl.
    eexists. split; [reflexivity|]. simpl.
    match goal with |- _ ∧ is_Some ?idx ∧ _ => assert (is_Some idx) as Hthere end.
    { unfold pymongo.index_information. simpl. rewrite lookup_insert_eq. simpl.
      rewrite lookup_insert_eq. eauto. }
    split; [|split; [exact Hthere|split; [by intros [? ?]|done]]].
    intros n' s' d'. by rewrite ensure_index_present.
Qed.

Lemma ensure_idempotent_witness :
  ∃ self1,
    ensure "sk_python_db" "sk_python_container" 100 COS 1536
      (MongoStoreApi_init empty_server) = (Ok (), self1)
    ∧ ensure "sk_python_db" "sk_python_container" 100 COS 1536 self1
      = (Ok (), self1)
    ∧ length (commands (mongoClient self1)) = 1%nat.
Proof.
  destruct (ensure_idempotent "sk_python_db" "sk_python_container" 100 COS 1536
              (MongoStoreApi_init empty_server) eq_refl)
    as (self1 & E1 & E2 & _ & _ & Hcmd).
  exists self1. split; [exact E1|]. split; [apply E2|].
  rewrite Hcmd; reflexivity.
Defined.

(** ** Comparing floats *)

Lemma SFcompare_antisym x y : SFcompare y x = CompOpp <$> SFcompare x y.
Proof.
  destruct x as [sx|sx| |sx mx ex], y as [sy|sy| |sy my ey]; simpl; try done;
    try (by destruct sx); try (by destruct sy); try (by destruct sx, sy).
  destruct sx, sy; simpl; try done;
    rewrite (Z.compare_antisym ex ey); destruct (ex ?= ey)%Z; simpl; try done;
    rewrite (Pos.compare_cont_antisym mx my Eq); simpl; done.
Qed.

Lemma SFcompare_defined x y :
  isnan x = false → isnan y = false → ∃ c, SFcompare x y = Some c.
Proof. destruct x, y; try discriminate; simpl; eauto. Qed.

(** Away from NaN, [not (score < min)] is [min <= score]. *)
Lemma SFltb_false_SFleb score min :
  isnan score = false → isnan min = false →
  SFltb score min = false → SFleb min score = true.
Proof.
  intros Hs Hm. unfold SFltb, SFleb. rewrite (SFcompare_antisym score min).
  destruct (SFcompare_defined score min Hs Hm) as [c ->]. by destruct c.
Qed.

(** ** Nearest matches (C4) *)

Lemma nearest_results_loop_ok {S} min_relevance_score w aggs (s : S) :
  Forall (λ agg, has_keys w (document agg) = true) aggs →
  ∃ nearest,
    nearest_results_loop min_relevance_score w aggs s = (Ok nearest, s)
    ∧ Forall2 is_candidate nearest (surviving min_relevance_score aggs).
Proof.
  induction 1 as [|agg aggs Hagg _ (nearest & E & Hall)]; simpl.
  - exists []. split; [done|constructor].
  - destruct (record_of_document_ok (agg_id agg) w (document agg) s Hagg)
      as (r & Er & Hid & _ & Htext & Hdesc & _).
    rewrite (bind_ok _ _ _ _ _ Er).
    destruct (SFltb (similarityScore agg) min_relevance_score); simpl.
    + by exists nearest.
    + exists ((r, similarityScore agg) :: nearest).
      rewrite (bind_ok _ _ _ _ _ E). split; [done|].
      constructor; [|done]. by repeat split.
Qed.

Lemma surviving_scores min_relevance_score aggs :
  Forall (λ agg, SFltb (similarityScore agg) min_relevance_score = false)
    (surviving min_relevance_score aggs).
Proof.
  apply List.Forall_forall. intros agg Hin.
  apply filter_In in Hin as [_ Hkeep]. by apply negb_true_iff in Hkeep.
Qed.

Lemma candidate_scores min_relevance_score nearest aggs :
  Forall2 is_candidate nearest aggs →
  Forall (λ agg, SFltb (similarityScore agg) min_relevance_score = false) aggs →
  Forall (λ p, SFltb p.2 min_relevance_score = false
               ∧ (isnan p.2 = false → isnan min_relevance_score = false →
                  SFleb min_relevance_score p.2 = true)) nearest.
Proof.
  induction 1 as [|p agg nearest aggs (Hp & _) _ IH]; intros Hscores;
    [constructor|].
  apply Forall_cons in Hscores as [Hagg Hrest].
  constructor; [|by apply IH]. rewrite Hp. split; [done|].
  intros Hs Hm. by apply SFltb_false_SFleb.
Qed.

(** C4, as the code has it. Let the database return at most [k] candidates
    for a candidate count [k], and let every candidate document carry the
    keys that the read subscripts. Then [get_nearest_matches_core] returns,
    leaving the state unchanged; it returns at most [limit] pairs; the pairs
    are exactly the candidates whose score is not strictly less than
    [min_relevance_score], in the database's order; and so no returned score
    is strictly less than [min_relevance_score], which makes it greater than
    or equal to it unless one of the two is NaN. *)
Theorem get_nearest_matches_core_filters
    (cosmosSearch : Collection → list float → nat → list (Doc.t * float))
    (collection_name : string) (embedding : ndarray) (limit : nat)
    (min_relevance_score : float) (with_embeddings : bool)
    (self : MongoStoreApi) (h : pymongo.handle) :
  (∀ col q k, (length (cosmosSearch col q k) ≤ k)%nat) →
  collection self = Some h →
  Forall (λ agg, has_keys with_embeddings (document agg) = true)
    (aggregate cosmosSearch h (tolist embedding) limit (mongoClient self)) →
  ∃ nearest,
    get_nearest_matches_core cosmosSearch collection_name embedding limit
      min_relevance_score with_embeddings self = (Ok nearest, self)
    ∧ (length nearest ≤ limit)%nat
    ∧ Forall2 is_candidate nearest
        (surviving min_relevance_score
           (aggregate cosmosSearch h (tolist embedding) limit (mongoClient self)))
    ∧ Forall (λ p, SFltb p.2 min_relevance_score = false
                   ∧ (isnan p.2 = false → isnan min_relevance_score = false →
                      SFleb min_relevance_score p.2 = true)) nearest.
Proof.
  intros Hk Hh Hkeys.
  destruct (nearest_results_loop_ok (S:=MongoStoreApi) min_relevance_score
              with_embeddings _ self Hkeys) as (nearest & E & Hall).
  exists nearest. split; [|split; [|split; [done|]]].
  - unfold get_nearest_matches_core.
    by rewrite (bind_ok _ _ _ _ _ (self_collection_bound _ _ _ Hh)).
  - rewrite (Forall2_length _ _ _ Hall). unfold surviving.
    etrans; [apply List.filter_length_le|].
    unfold aggregate. rewrite length_fmap. apply Hk.
  - eapply candidate_scores; [exact Hall | apply surviving_scores].
Qed.

Lemma sample_search_at_most_k col q k :
  (length (sample_search col q k) ≤ k)%nat.
Proof. unfold sample_search. rewrite length_take. lia. Qed.

Lemma get_nearest_matches_core_filters_witness :
  ∃ nearest,
    get_nearest_matches_core sample_search "sk_python_container"
      [f0; f1; f0; f0; f0] 3 f0 true sample_store_dated
    = (Ok nearest, sample_store_dated)
    ∧ (length nearest ≤ 3)%nat.
Proof.
  destruct (get_nearest_matches_core_filters sample_search "sk_python_container"
              [f0; f1; f0; f0; f0] 3 f0 true sample_store_dated
              ("sk_python_db", "sk_python_container")
              sample_search_at_most_k eq_refl)
    as (nearest & E & Hlen & _).
  - vm_compute. repeat constructor.
  - exists nearest. split; [exact E | exact Hlen].
Defined.

(** C4 as stated fails: with a threshold that is NaN, nothing is strictly
    less than the threshold, so the candidate of score 0.5 is returned,
    although 0.5 is not greater than or equal to the threshold. *)
Lemma get_nearest_matches_core_nan_threshold :
  ∃ r, get_nearest_matches_core sample_search "sk_python_container"
         [f0; f1; f0; f0; f0] 3 S754_nan true sample_store_dated
       = (Ok [(r, fhalf)], sample_store_dated)
       ∧ SFleb S754_nan fhalf = false.
Proof. eexists. split; [vm_compute; reflexivity | reflexivity]. Qed.

(** * Further properties of the store *)

(** ** The collection after a write *)

Lemma lookup_collection_insert h col cs c :
  pymongo.lookup_collection h (pymongo.set_collections (<[h := col]> cs) c) = col.
Proof. unfold pymongo.lookup_collection. simpl. by rewrite lookup_insert_eq. Qed.

Lemma lookup_collection_insert_ne h h' col cs c :
  h ≠ h' →
  pymongo.lookup_collection h' (pymongo.set_collections (<[h := col]> cs) c)
  = default new_collection (cs !! h').
Proof. intros Hne. unfold pymongo.lookup_collection. simpl. by rewrite lookup_insert_ne. Qed.

Lemma existsb_has_id key ds :
  existsb (pymongo.has_id key) ds = true ↔ key ∈ Doc._id <$> ds.
Proof.
  rewrite existsb_exists, list_elem_of_fmap. unfold pymongo.has_id.
  split; intros (d & H1 & H2).
  - apply String.eqb_eq in H2. exists d. split; [done|]. by apply list_elem_of_In.
  - exists d. split; [by apply list_elem_of_In|]. apply String.eqb_eq. done.
Qed.

Lemma existsb_has_id_false key ds :
  existsb (pymongo.has_id key) ds = false ↔ key ∉ Doc._id <$> ds.
Proof.
  rewrite <- existsb_has_id. by destruct (existsb _ _).
Qed.

(** What one insert does. *)
Lemma insert_one_spec h d c :
  (Doc._id d ∈ ids_of h c ∧ pymongo.insert_one h d c = (Err BulkWriteError, c))
  ∨ ((Doc._id d ∉ ids_of h c)
     ∧ ∃ c', pymongo.insert_one h d c = (Ok (), c') ∧ appended h [d] c c').
Proof.
  unfold pymongo.insert_one, ids_of.
  destruct (existsb _ _) eqn:E.
  - left. by apply existsb_has_id in E.
  - right. apply existsb_has_id_false in E. split; [done|].
    eexists. split; [reflexivity|]. unfold appended.
    rewrite lookup_collection_insert. simpl.
    repeat split. intros h' Hne. by rewrite lookup_insert_ne.
Qed.

Lemma appended_nil h c : appended h [] c c.
Proof. unfold appended. rewrite app_nil_r. by repeat split. Qed.

Lemma appended_trans h ds1 ds2 c c1 c2 :
  appended h ds1 c c1 → appended h ds2 c1 c2 → appended h (ds1 ++ ds2) c c2.
Proof.
  intros (Hd1 & Hi1 & Hf1 & Hm1 & Hc1) (Hd2 & Hi2 & Hf2 & Hm2 & Hc2).
  unfold appended. rewrite Hd2, Hd1, Hi2, Hi1, Hm2, Hm1, Hc2, Hc1.
  rewrite (assoc_L (++)). repeat split.
  intros h' Hne. by rewrite Hf2, Hf1.
Qed.

Lemma appended_ids h ds c c' :
  appended h ds c c' → ids_of h c' = (ids_of h c ++ (Doc._id <$> ds))%list.
Proof. intros (Hd & _). unfold ids_of. by rewrite Hd, fmap_app. Qed.

Lemma appended_other h h' ds c c' :
  appended h ds c c' → h ≠ h' →
  pymongo.lookup_collection h' c' = pymongo.lookup_collection h' c.
Proof.
  intros (_ & _ & Hf & _) Hne. unfold pymongo.lookup_collection. by rewrite Hf.
Qed.

(** What an ordered bulk insert does: it writes the longest prefix of the
    documents whose ids are new, and fails when that is not all of them. *)
Lemma for_each_insert_one_spec h ds c :
  ∃ res pre post c',
    for_each (pymongo.insert_one h) ds c = (res, c')
    ∧ ds = (pre ++ post)%list
    ∧ appended h pre c c'
    ∧ NoDup (Doc._id <$> pre)
    ∧ Forall (λ d, Doc._id d ∉ ids_of h c) pre
    ∧ match res with
      | Ok us => post = [] ∧ length us = length ds
      | Err e =>
          e = BulkWriteError
          ∧ ∃ d post', post = d :: post' ∧ Doc._id d ∈ ids_of h c'
      end.
Proof.
  revert c. induction ds as [|d ds IH]; intros c; simpl.
  - exists (Ok []), [], [], c.
    split; [done|]. split; [done|]. split; [apply appended_nil|].
    repeat split; constructor.
  - destruct (insert_one_spec h d c) as [[Hin E]|(Hfresh & c1 & E & Happ)].
    + exists (Err BulkWriteError), [], (d :: ds), c.
      rewrite (bind_err _ _ _ _ _ E).
      split; [done|]. split; [done|]. split; [apply appended_nil|].
      split; [constructor|]. split; [constructor|]. split; [done|]. eauto.
    + destruct (IH c1)
        as (res & pre & post & c' & E' & Hds & Happ' & Hnd & Hall & Hres).
      rewrite (bind_ok _ _ _ _ _ E).
      pose proof (appended_ids _ _ _ _ Happ) as Hids. simpl in Hids.
      assert (Forall (λ d', (Doc._id d' ∉ ids_of h c) ∧ Doc._id d' ≠ Doc._id d) pre)
        as Hall'.
      { eapply Forall_impl; [exact Hall|]. simpl. intros d' Hd'.
        rewrite Hids in Hd'.
        by apply not_elem_of_app in Hd' as [? [? _]%not_elem_of_cons]. }
      assert (NoDup (Doc._id <$> d :: pre)) as Hnd'.
      { simpl. apply NoDup_cons. split; [|done].
        rewrite list_elem_of_fmap. intros (d' & Heq & Hin).
        apply (proj1 (Forall_forall _ _) Hall' d') in Hin as [_ Hne]. congruence. }
      assert (Forall (λ d', Doc._id d' ∉ ids_of h c) (d :: pre)) as Hall''.
      { constructor; [done|]. eapply Forall_impl; [exact Hall'|].
        by intros d' [? _]. }
      pose proof (appended_trans h [d] pre c c1 c' Happ Happ') as Happ''.
      destruct res as [us|e].
      * exists (Ok (() :: us)), (d :: pre), post, c'.
        rewrite (bind_ok _ _ _ _ _ E'). destruct Hres as [Hpost Hlen].
        split; [done|]. split; [by rewrite Hds|]. split; [exact Happ''|].
        split; [exact Hnd'|]. split; [exact Hall''|].
        split; [done|]. simpl. by rewrite Hlen.
      * exists (Err e), (d :: pre), post, c'.
        rewrite (bind_err _ _ _ _ _ E').
        split; [done|]. split; [by rewrite Hds|]. split; [exact Happ''|].
        split; [exact Hnd'|]. split; [exact Hall''|]. exact Hres.
Qed.

Lemma fresh_after_insert h d ds c c1 :
  appended h [d] c c1 →
  NoDup (Doc._id <$> d :: ds) →
  Forall (λ d', Doc._id d' ∉ ids_of h c) ds →
  Forall (λ d', Doc._id d' ∉ ids_of h c1) ds.
Proof.
  intros Happ Hnd Hall. rewrite (appended_ids _ _ _ _ Happ). simpl.
  apply NoDup_cons in Hnd as [Hd _].
  apply Forall_forall. intros d' Hin.
  pose proof (proj1 (Forall_forall _ _) Hall d' Hin) as Hd'.
  assert (Doc._id d' ≠ Doc._id d).
  { intros Heq. apply Hd. rewrite <- Heq. by apply list_elem_of_fmap_2. }
  apply not_elem_of_app. split; [done|].
  apply not_elem_of_cons. split; [done | apply not_elem_of_nil].
Qed.

Lemma for_each_insert_one_ok h ds c :
  NoDup (Doc._id <$> ds) →
  Forall (λ d, Doc._id d ∉ ids_of h c) ds →
  ∃ us c', for_each (pymongo.insert_one h) ds c = (Ok us, c') ∧ appended h ds c c'.
Proof.
  revert c. induction ds as [|d ds IH]; intros c Hnd Hall; simpl.
  - exists [], c. split; [done | apply appended_nil].
  - apply Forall_cons in Hall as [Hd Hall].
    destruct (insert_one_spec h d c) as [[Hin _]|(_ & c1 & E & Happ)]; [done|].
    destruct (IH c1) as (us & c' & E' & Happ').
    { by apply NoDup_cons in Hnd as [_ Hnd]. }
    { by apply (fresh_after_insert h d ds c c1). }
    exists (() :: us), c'.
    rewrite (bind_ok _ _ _ _ _ E), (bind_ok _ _ _ _ _ E').
    split; [done|]. by apply (appended_trans h [d] ds c c1 c').
Qed.

Lemma for_each_insert_one_clash h pre d post c :
  NoDup (Doc._id <$> pre) →
  Forall (λ d', Doc._id d' ∉ ids_of h c) pre →
  Doc._id d ∈ (ids_of h c ++ (Doc._id <$> pre))%list →
  ∃ c', for_each (pymongo.insert_one h) (pre ++ d :: post) c
        = (Err BulkWriteError, c')
        ∧ appended h pre c c'.
Proof.
  revert c. induction pre as [|p pre IH]; intros c Hnd Hall Hclash; simpl.
  - rewrite app_nil_r in Hclash.
    destruct (insert_one_spec h d c) as [[_ E]|(Hfresh & _)]; [|done].
    exists c. rewrite (bind_err _ _ _ _ _ E). split; [done | apply appended_nil].
  - apply Forall_cons in Hall as [Hp Hall].
    destruct (insert_one_spec h p c) as [[Hin _]|(_ & c1 & E & Happ)]; [done|].
    destruct (IH c1) as (c' & E' & Happ').
    { by apply NoDup_cons in Hnd as [_ Hnd]. }
    { by apply (fresh_after_insert h p pre c c1). }
    { rewrite (appended_ids _ _ _ _ Happ), <- (assoc_L (++)). exact Hclash. }
    exists c'. rewrite (bind_ok _ _ _ _ _ E), (bind_err _ _ _ _ _ E').
    split; [done|]. by apply (appended_trans h [p] pre c c1 c').
Qed.

(** ** Batch upsert *)

Lemma cosmosRecord_ids (records : list MemoryRecord.t) :
  Doc._id <$> (cosmosRecord <$> records) = MemoryRecord.id <$> records.
Proof.
  rewrite <- list_fmap_compose. apply list_fmap_ext. intros _ r _. simpl.
  apply cosmosRecord_id.
Qed.

Lemma upsert_batch_core_bound collection_name records self h :
  collection self = Some h →
  upsert_batch_core collection_name records self
  = match pymongo.insert_many h (cosmosRecord <$> records) (mongoClient self) with
    | (Ok _, c) => (Ok (MemoryRecord.id <$> records),
                    {| collection := Some h; mongoClient := c |})
    | (Err e, c) => (Err e, {| collection := Some h; mongoClient := c |})
    end.
Proof.
  intros Hh. unfold upsert_batch_core.
  rewrite (bind_ok _ _ _ _ _ (self_collection_bound _ _ _ Hh)).
  unfold on_client. run_monad. rewrite Hh.
  destruct (pymongo.insert_many h (cosmosRecord <$> records) (mongoClient self))
    as [[[]|e] c]; [|done].
  by rewrite cosmosRecord_ids.
Qed.

Lemma upsert_batch_core_unbound collection_name records self :
  collection self = None →
  upsert_batch_core collection_name records self
  = (Err (AttributeError "insert_many"), self).
Proof.
  intros Hh. unfold upsert_batch_core, self_collection. run_monad. by rewrite Hh.
Qed.

Lemma insert_many_cons h d ds c :
  pymongo.insert_many h (d :: ds) c
  = match for_each (pymongo.insert_one h) (d :: ds) c with
    | (Ok _, c') => (Ok (), c')
    | (Err e, c') => (Err e, c')
    end.
Proof.
  unfold pymongo.insert_many.
  destruct (for_each (pymongo.insert_one h) (d :: ds) c) as [[us|e] c'] eqn:E.
  - by rewrite (bind_ok _ _ _ _ _ E).
  - by rewrite (bind_err _ _ _ _ _ E).
Qed.

Lemma rebind_bound self h :
  collection self = Some h →
  {| collection := Some h; mongoClient := mongoClient self |} = self.
Proof. destruct self as [o c]. simpl. by intros ->. Qed.

(** X1. When [upsert_batch_core] succeeds it returns the ids of the records,
    one per record and in the order of the input; the batch was not empty,
    its ids are pairwise distinct and none was in the collection; and the
    documents of the records were added, in order, at the end of the bound
    collection, nothing else being changed. *)
Theorem upsert_batch_core_returns_ids (collection_name : string)
    (records : list MemoryRecord.t) (self self1 : MongoStoreApi)
    (doc_ids : list string) :
  upsert_batch_core collection_name records self = (Ok doc_ids, self1) →
  doc_ids = MemoryRecord.id <$> records
  ∧ length doc_ids = length records
  ∧ records ≠ []
  ∧ NoDup doc_ids
  ∧ ∃ h, collection self = Some h
         ∧ collection self1 = Some h
         ∧ Forall (λ i, i ∉ ids_of h (mongoClient self)) doc_ids
         ∧ appended h (cosmosRecord <$> records) (mongoClient self)
             (mongoClient self1).
Proof.
  intros E. destruct (collection self) as [h|] eqn:Hh;
    [|by rewrite (upsert_batch_core_unbound _ _ _ Hh) in E].
  rewrite (upsert_batch_core_bound _ _ _ _ Hh) in E.
  destruct records as [|r records]; [discriminate|].
  change (cosmosRecord <$> r :: records)
    with (cosmosRecord r :: (cosmosRecord <$> records)) in E.
  rewrite insert_many_cons in E.
  destruct (for_each_insert_one_spec h
              (cosmosRecord r :: (cosmosRecord <$> records)) (mongoClient self))
    as (res & pre & post & c' & E' & Hds & Happ & Hnd & Hall & Hres).
  rewrite E' in E. destruct res as [us|e]; [|discriminate].
  injection E as <- <-. destruct Hres as [-> _]. rewrite app_nil_r in Hds.
  subst pre.
  change (cosmosRecord r :: (cosmosRecord <$> records))
    with (cosmosRecord <$> r :: records) in *.
  rewrite cosmosRecord_ids in Hnd.
  split; [done|]. split; [apply (length_fmap MemoryRecord.id (r :: records))|].
  split; [done|].
  split; [done|]. exists h. split; [done|]. split; [done|].
  split; [|exact Happ].
  change (Forall (λ i, i ∉ ids_of h (mongoClient self))
            (MemoryRecord.id <$> r :: records)).
  rewrite <- cosmosRecord_ids. by apply Forall_fmap.
Qed.

(** X2. [upsert_batch_core] succeeds on an adapter bound to a collection when
    the batch is not empty, the ids of its records are pairwise distinct and
    none of them is the id of a document of the collection. *)
Theorem upsert_batch_core_succeeds (collection_name : string)
    (records : list MemoryRecord.t) (self : MongoStoreApi) (h : pymongo.handle) :
  collection self = Some h →
  records ≠ [] →
  NoDup (MemoryRecord.id <$> records) →
  Forall (λ r, MemoryRecord.id r ∉ ids_of h (mongoClient self)) records →
  ∃ self1,
    upsert_batch_core collection_name records self
    = (Ok (MemoryRecord.id <$> records), self1)
    ∧ collection self1 = Some h
    ∧ appended h (cosmosRecord <$> records) (mongoClient self) (mongoClient self1).
Proof.
  intros Hh Hne Hnd Hall. rewrite (upsert_batch_core_bound _ _ _ _ Hh).
  destruct records as [|r records]; [done|].
  change (cosmosRecord <$> r :: records)
    with (cosmosRecord r :: (cosmosRecord <$> records)).
  rewrite insert_many_cons.
  destruct (for_each_insert_one_ok h (cosmosRecord <$> r :: records)
              (mongoClient self)) as (us & c' & E & Happ).
  { by rewrite cosmosRecord_ids. }
  { apply Forall_fmap. eapply Forall_impl; [exact Hall|]. simpl.
    intros r'. by rewrite cosmosRecord_id. }
  change (cosmosRecord r :: (cosmosRecord <$> records))
    with (cosmosRecord <$> r :: records).
  rewrite E. eauto.
Qed.

(** X3. An empty batch is refused: on a bound adapter [upsert_batch_core]
    with no record raises the [TypeError] of [insert_many] (the documents
    must be a non-empty list) and changes nothing. *)
Theorem upsert_batch_core_empty (collection_name : string)
    (self : MongoStoreApi) (h : pymongo.handle) :
  collection self = Some h →
  upsert_batch_core collection_name [] self = (Err TypeError_empty_documents, self).
Proof.
  intros Hh. rewrite (upsert_batch_core_bound _ _ _ _ Hh). simpl.
  by rewrite (rebind_bound _ _ Hh).
Qed.

(** X5. A batch is not all-or-nothing: when a record of the batch has the id
    of a document of the collection or of an earlier record of the batch,
    while the records before it are new and distinct, [upsert_batch_core]
    raises [BulkWriteError] and the documents of the records before it stay
    written. *)
Theorem upsert_batch_core_partial_write (collection_name : string)
    (pre post : list MemoryRecord.t) (record : MemoryRecord.t)
    (self : MongoStoreApi) (h : pymongo.handle) :
  collection self = Some h →
  NoDup (MemoryRecord.id <$> pre) →
  Forall (λ r, MemoryRecord.id r ∉ ids_of h (mongoClient self)) pre →
  MemoryRecord.id record
    ∈ (ids_of h (mongoClient self) ++ (MemoryRecord.id <$> pre))%list →
  ∃ self1,
    upsert_batch_core collection_name (pre ++ record :: post) self
    = (Err BulkWriteError, self1)
    ∧ collection self1 = Some h
    ∧ appended h (cosmosRecord <$> pre) (mongoClient self) (mongoClient self1).
Proof.
  intros Hh Hnd Hall Hclash. rewrite (upsert_batch_core_bound _ _ _ _ Hh).
  destruct (for_each_insert_one_clash h (cosmosRecord <$> pre)
              (cosmosRecord record) (cosmosRecord <$> post) (mongoClient self))
    as (c' & E & Happ).
  { by rewrite cosmosRecord_ids. }
  { apply Forall_fmap. eapply Forall_impl; [exact Hall|]. simpl.
    intros r'. by rewrite cosmosRecord_id. }
  { by rewrite cosmosRecord_ids, cosmosRecord_id. }
  assert (cosmosRecord <$> (pre ++ record :: post)%list
          = ((cosmosRecord <$> pre) ++ cosmosRecord record :: (cosmosRecord <$> post))%list)
    as -> by by rewrite fmap_app.
  destruct ((cosmosRecord <$> pre) ++ cosmosRecord record :: (cosmosRecord <$> post))%list
    as [|d ds] eqn:Hds; [by destruct pre|].
  rewrite insert_many_cons, E. eauto.
Qed.

(** ** Lookups by id *)

Lemma filter_has_id_nil key (ds : list Doc.t) :
  key ∉ Doc._id <$> ds → List.filter (pymongo.has_id key) ds = [].
Proof.
  induction ds as [|d ds IH]; simpl; [done|]. intros Hnot.
  apply not_elem_of_cons in Hnot as [Hne Hnot].
  unfold pymongo.has_id at 1.
  destruct (String.eqb_spec (Doc._id d) key); [done | by apply IH].
Qed.

Lemma find_one_None h key p c :
  pymongo.find_one h key p c = None ↔ key ∉ ids_of h c.
Proof.
  unfold pymongo.find_one, ids_of. split.
  - intros E Hin. apply existsb_has_id in Hin.
    apply existsb_exists in Hin as (d & Hin & Hd).
    assert (In d (List.filter (pymongo.has_id key)
                    (documents (pymongo.lookup_collection h c)))) as Hf
      by (apply filter_In; done).
    destruct (List.filter _ _); [done | discriminate].
  - intros Hnot. by rewrite filter_has_id_nil.
Qed.

Lemma find_one_appended h key p ds c c' :
  appended h ds c c' →
  key ∉ Doc._id <$> ds →
  pymongo.find_one h key p c' = pymongo.find_one h key p c.
Proof.
  intros (Hd & _) Hnot. unfold pymongo.find_one.
  by rewrite Hd, List.filter_app, (filter_has_id_nil key ds Hnot), app_nil_r.
Qed.

Lemma record_of_result_fst {S1 S2} w o (s1 : S1) (s2 : S2) :
  (record_of_result w o s1).1 = (record_of_result w o s2).1.
Proof.
  destruct o as [d|]; [|done]. simpl.
  destruct d as [? [e|] [?|] [?|] [?|] [?|]]; by destruct w.
Qed.

(** X4. The store inserts, it does not overwrite: once a record was
    upserted, upserting any record with the same id raises [BulkWriteError]
    and changes nothing, so the document first written stays. *)
Theorem upsert_core_same_id_twice (collection_name collection_name' : string)
    (record record' : MemoryRecord.t) (self self1 : MongoStoreApi)
    (doc_id : string) :
  upsert_core collection_name record self = (Ok doc_id, self1) →
  MemoryRecord.id record' = MemoryRecord.id record →
  upsert_core collection_name' record' self1 = (Err BulkWriteError, self1).
Proof.
  intros E Hid. apply upsert_core_inv in E as (_ & h & _ & Hh & Hfind).
  rewrite (upsert_core_bound _ _ _ _ Hh).
  destruct (insert_one_spec h (cosmosRecord record') (mongoClient self1))
    as [[_ ->]|(Hfresh & _)].
  - by rewrite (rebind_bound _ _ Hh).
  - rewrite cosmosRecord_id, Hid in Hfresh.
    apply (find_one_None h _ false) in Hfresh. congruence.
Qed.

(** X19. An upsert, whether it succeeds or fails, does not disturb the other
    records: a lookup of an id other than the record's gives, after it, what
    it gave before. *)
Theorem upsert_core_keeps_other_ids (collection_name collection_name' : string)
    (record : MemoryRecord.t) (key : string) (with_embedding : bool)
    (self self1 : MongoStoreApi) (res : result string) :
  upsert_core collection_name record self = (res, self1) →
  key ≠ MemoryRecord.id record →
  (get_core collection_name' key with_embedding self1).1
  = (get_core collection_name' key with_embedding self).1.
Proof.
  intros E Hne. destruct (collection self) as [h|] eqn:Hh.
  - rewrite (upsert_core_bound _ _ _ _ Hh) in E.
    rewrite (get_core_bound _ _ _ self h Hh).
    destruct (insert_one_spec h (cosmosRecord record) (mongoClient self))
      as [[_ Ei]|(_ & c1 & Ei & Happ)]; rewrite Ei in E; injection E as <- <-.
    + rewrite (get_core_bound _ _ _
                 {| collection := Some h; mongoClient := mongoClient self |} h eq_refl).
      simpl. apply record_of_result_fst.
    + rewrite (get_core_bound _ _ _
                 {| collection := Some h; mongoClient := c1 |} h eq_refl).
      simpl.
      rewrite (find_one_appended h key _ _ _ _ Happ).
      * apply record_of_result_fst.
      * simpl. rewrite cosmosRecord_id.
        apply not_elem_of_cons. split; [done | apply not_elem_of_nil].
  - assert (self1 = self) as ->; [|done].
    revert E. unfold upsert_core, upsert_batch_core, self_collection. run_monad.
    rewrite Hh. by intros [= _ <-].
Qed.

(** ** Reading a batch *)

Lemma existsb_eqb i (keys : list string) :
  existsb (String.eqb i) keys = true ↔ i ∈ keys.
Proof.
  rewrite existsb_exists. split.
  - intros (k & Hin & Hk). apply String.eqb_eq in Hk. subst.
    by apply list_elem_of_In.
  - intros Hin. exists i. split; [by apply list_elem_of_In | apply String.eqb_refl].
Qed.

Lemma apply_projection_id p d : Doc._id (pymongo.apply_projection p d) = Doc._id d.
Proof. by destruct p. Qed.

Lemma find_ids h keys p c :
  Doc._id <$> pymongo.find h keys p c
  = List.filter (λ i, existsb (String.eqb i) keys) (ids_of h c).
Proof.
  unfold pymongo.find, ids_of.
  induction (documents (pymongo.lookup_collection h c)) as [|d ds IH]; simpl;
    [done|].
  destruct (existsb (String.eqb (Doc._id d)) keys); simpl; [|done].
  rewrite apply_projection_id. f_equal. apply IH.
Qed.

Lemma for_each_record_ids {S} w (ds : list Doc.t) (s s' : S) rs :
  for_each (λ d, record_of_document (Doc._id d) w d) ds s = (Ok rs, s') →
  s' = s ∧ MemoryRecord.id <$> rs = Doc._id <$> ds.
Proof.
  revert s s' rs. induction ds as [|d ds IH]; simpl; intros s s' rs E.
  - by injection E as <- <-.
  - apply bind_inv_ok in E as (r & s1 & Er & E).
    apply bind_inv_ok in E as (rs' & s2 & Ers & E).
    injection E as <- <-.
    apply record_of_document_inv in Er as (-> & Hid & _).
    apply IH in Ers as (-> & Hids). split; [done|].
    change (MemoryRecord.id r :: (MemoryRecord.id <$> rs')
            = Doc._id d :: (Doc._id <$> ds)).
    by rewrite Hid, Hids.
Qed.

(** X6. What [get_batch_core] returns, when it returns, are records for
    exactly the documents of the collection whose id is among [keys], each
    once, in no order that is stated here: every returned id is one of
    [keys], an id of [keys] that no document has is simply not there, and the
    state is unchanged. *)
Theorem get_batch_core_returns_stored_keys (collection_name : string)
    (keys : list string) (with_embeddings : bool) (self self' : MongoStoreApi)
    (rs : list MemoryRecord.t) :
  get_batch_core collection_name keys with_embeddings self = (Ok rs, self') →
  self' = self
  ∧ Forall (λ r, MemoryRecord.id r ∈ keys) rs
  ∧ ∃ h, collection self = Some h
         ∧ MemoryRecord.id <$> rs
           ≡ₚ List.filter (λ i, existsb (String.eqb i) keys)
                (ids_of h (mongoClient self)).
Proof.
  intros E. apply get_batch_core_inv in E as (h & Hh & E).
  apply for_each_record_ids in E as (-> & Hids). rewrite find_ids in Hids.
  split; [done|]. split; [|exists h; by rewrite Hids].
  apply Forall_fmap with (f := MemoryRecord.id) (P := λ i, i ∈ keys).
  rewrite Hids. apply List.Forall_forall. intros i Hin.
  apply filter_In in Hin as [_ Hi]. by apply existsb_eqb.
Qed.

(** X7. Keys that no document has are no error for [get_batch_core]: on a
    bound adapter, when none of the ids of the collection is among [keys]
    (so also for no key at all), it returns the empty list. *)
Theorem get_batch_core_no_match (collection_name : string) (keys : list string)
    (with_embeddings : bool) (self : MongoStoreApi) (h : pymongo.handle) :
  collection self = Some h →
  Forall (λ i, i ∉ keys) (ids_of h (mongoClient self)) →
  get_batch_core collection_name keys with_embeddings self = (Ok [], self).
Proof.
  intros Hh Hnone. rewrite (get_batch_core_bound _ _ _ _ _ Hh).
  assert (pymongo.find h keys (negb with_embeddings) (mongoClient self) = [])
    as ->; [|done].
  apply fmap_nil_inv with (f := Doc._id). rewrite find_ids.
  induction Hnone as [|i ids Hi _ IH]; simpl; [done|].
  destruct (existsb (String.eqb i) keys) eqn:E; [|done].
  by apply existsb_eqb in E.
Qed.

Lemma record_of_cosmosRecord {S} (r : MemoryRecord.t) (s : S) :
  is_Some (MemoryRecord.timestamp r) →
  record_of_document (Doc._id (cosmosRecord r)) true (cosmosRecord r) s
  = (Ok (read_back r), s).
Proof.
  intros [ts Hts]. rewrite cosmosRecord_id. unfold cosmosRecord, read_back.
  by rewrite Hts.
Qed.

Lemma for_each_record_of_cosmosRecord {S} (records : list MemoryRecord.t) (s : S) :
  Forall (λ r, is_Some (MemoryRecord.timestamp r)) records →
  for_each (λ d, record_of_document (Doc._id d) true d) (cosmosRecord <$> records) s
  = (Ok (read_back <$> records), s).
Proof.
  induction 1 as [|r records Hr _ IH]; simpl; [done|].
  by rewrite (bind_ok _ _ _ _ _ (record_of_cosmosRecord r s Hr)),
    (bind_ok _ _ _ _ _ IH).
Qed.

Lemma filter_none (keys : list string) (ds : list Doc.t) :
  Forall (λ d, Doc._id d ∉ keys) ds →
  List.filter (λ d, existsb (String.eqb (Doc._id d)) keys) ds = [].
Proof.
  induction 1 as [|d ds Hd _ IH]; simpl; [done|].
  destruct (existsb _ _) eqn:E; [|done]. by apply existsb_eqb in E.
Qed.

Lemma filter_all (keys : list string) (ds : list Doc.t) :
  Forall (λ d, Doc._id d ∈ keys) ds →
  List.filter (λ d, existsb (String.eqb (Doc._id d)) keys) ds = ds.
Proof.
  induction 1 as [|d ds Hd _ IH]; simpl; [done|].
  apply existsb_eqb in Hd. by rewrite Hd, IH.
Qed.

(** In the model, a batch that was written is read back as [read_back] of
    its records. *)
Lemma get_batch_core_after_upsert_batch (collection_name collection_name' : string)
    (records : list MemoryRecord.t) (self self1 : MongoStoreApi)
    (doc_ids : list string) :
  upsert_batch_core collection_name records self = (Ok doc_ids, self1) →
  Forall (λ r, is_Some (MemoryRecord.timestamp r)) records →
  get_batch_core collection_name' doc_ids true self1
  = (Ok (read_back <$> records), self1).
Proof.
  intros E Hts.
  apply upsert_batch_core_returns_ids
    in E as (-> & _ & _ & _ & h & _ & Hh & Hfresh & Happ).
  rewrite (get_batch_core_bound _ _ _ _ _ Hh). simpl.
  unfold pymongo.find. simpl. destruct Happ as (-> & _).
  rewrite List.filter_app, filter_none, filter_all, list_fmap_id; simpl.
  - by apply for_each_record_of_cosmosRecord.
  - apply Forall_fmap. apply Forall_forall. intros r Hr. simpl.
    rewrite cosmosRecord_id. by apply list_elem_of_fmap_2.
  - apply Forall_forall. intros d Hd Hin.
    apply list_elem_of_fmap in Hin as (r & Heq & Hr).
    apply (proj1 (Forall_forall _ _) Hfresh (MemoryRecord.id r)).
    + by apply list_elem_of_fmap_2.
    + rewrite <- Heq. unfold ids_of. by apply list_elem_of_fmap_2.
Qed.

(** X20. Write a batch, read it back: after [upsert_batch_core] succeeded on
    records that all carry a timestamp, [get_batch_core] on the returned ids,
    with the embeddings, returns, leaving the state unchanged, one record
    per record written, in no order that is stated here; apart from the
    timestamp, of which nothing is said, each is equal to a written one in
    id, embedding, text and description, and its additional metadata is the
    serialized metadata of that record. *)
Theorem upsert_batch_then_get_batch (collection_name collection_name' : string)
    (records : list MemoryRecord.t) (self self1 : MongoStoreApi)
    (doc_ids : list string) :
  upsert_batch_core collection_name records self = (Ok doc_ids, self1) →
  Forall (λ r, is_Some (MemoryRecord.timestamp r)) records →
  ∃ rs,
    get_batch_core collection_name' doc_ids true self1 = (Ok rs, self1)
    ∧ untimed <$> rs
      ≡ₚ (λ r, (MemoryRecord.id r, MemoryRecord.embedding r, MemoryRecord.text r,
                MemoryRecord.description r, __serialize_metadata r)) <$> records.
Proof.
  intros E Hts. exists (read_back <$> records).
  split; [by apply (get_batch_core_after_upsert_batch collection_name _ _ self)|].
  by rewrite <- list_fmap_compose.
Qed.

(** ** Removing records *)

Lemma set_collections_id c : pymongo.set_collections (collections c) c = c.
Proof. by destruct c. Qed.

(** What a delete does to the client, for a function [f] on documents that
    keeps the empty list empty. *)
Lemma update_documents_spec h f c :
  f [] = [] →
  ∃ c', pymongo.update_documents h f c = (Ok (), c')
        ∧ documents (pymongo.lookup_collection h c')
          = f (documents (pymongo.lookup_collection h c))
        ∧ indexes (pymongo.lookup_collection h c')
          = indexes (pymongo.lookup_collection h c)
        ∧ (∀ h', h ≠ h' → collections c' !! h' = collections c !! h')
        ∧ is_mongos c' = is_mongos c
        ∧ commands c' = commands c
        ∧ (f (documents (pymongo.lookup_collection h c))
           = documents (pymongo.lookup_collection h c) → c' = c).
Proof.
  intros Hnil. unfold pymongo.update_documents.
  destruct (collections c !! h) as [col|] eqn:Hcol.
  - eexists. split; [reflexivity|]. rewrite lookup_collection_insert.
    unfold pymongo.lookup_collection. rewrite Hcol. simpl.
    repeat split.
    + intros h' Hne. by rewrite lookup_insert_ne.
    + intros ->. destruct col. simpl. rewrite insert_id by done.
      apply set_collections_id.
  - exists c. unfold pymongo.lookup_collection. rewrite Hcol. simpl.
    by rewrite Hnil.
Qed.

Lemma remove_first_absent key (ds : list Doc.t) :
  key ∉ Doc._id <$> ds → pymongo.remove_first key ds = ds.
Proof.
  induction ds as [|d ds IH]; simpl; [done|]. intros Hnot.
  apply not_elem_of_cons in Hnot as [Hne Hnot]. unfold pymongo.has_id.
  destruct (String.eqb_spec (Doc._id d) key); [done|]. by rewrite IH.
Qed.

Lemma remove_first_sublist key (ds : list Doc.t) :
  pymongo.remove_first key ds `sublist_of` ds.
Proof.
  induction ds as [|d ds IH]; simpl; [done|].
  destruct (pymongo.has_id key d); by constructor.
Qed.

Lemma remove_first_gone key (ds : list Doc.t) :
  NoDup (Doc._id <$> ds) → key ∉ Doc._id <$> pymongo.remove_first key ds.
Proof.
  induction ds as [|d ds IH]; simpl; [set_solver|]. intros Hnd.
  apply NoDup_cons in Hnd as [Hd Hnd]. unfold pymongo.has_id at 1.
  destruct (String.eqb_spec (Doc._id d) key) as [<-|Hne]; [done|].
  simpl. apply not_elem_of_cons. split; [done | by apply IH].
Qed.

Lemma remove_first_other key key' (ds : list Doc.t) :
  key' ≠ key →
  List.filter (pymongo.has_id key') (pymongo.remove_first key ds)
  = List.filter (pymongo.has_id key') ds.
Proof.
  intros Hne. induction ds as [|d ds IH]; simpl; [done|].
  destruct (pymongo.has_id key d) eqn:Ek.
  - destruct (pymongo.has_id key' d) eqn:Ek'; [|done].
    unfold pymongo.has_id in Ek, Ek'.
    apply String.eqb_eq in Ek, Ek'. congruence.
  - simpl. by rewrite IH.
Qed.

Lemma remove_core_bound collection_name key self h :
  collection self = Some h →
  remove_core collection_name key self
  = on_client (pymongo.delete_one h key) self.
Proof.
  intros Hh. unfold remove_core.
  by rewrite (bind_ok _ _ _ _ _ (self_collection_bound _ _ _ Hh)).
Qed.

Lemma remove_batch_core_bound collection_name keys self h :
  collection self = Some h →
  remove_batch_core collection_name keys self
  = on_client (pymongo.delete_many h keys) self.
Proof.
  intros Hh. unfold remove_batch_core.
  by rewrite (bind_ok _ _ _ _ _ (self_collection_bound _ _ _ Hh)).
Qed.

(** X8. Removing an id that no document of the collection has is no error
    and changes nothing. *)
Theorem remove_core_absent_id (collection_name key : string)
    (self : MongoStoreApi) (h : pymongo.handle) :
  collection self = Some h →
  key ∉ ids_of h (mongoClient self) →
  remove_core collection_name key self = (Ok (), self).
Proof.
  intros Hh Hnot. rewrite (remove_core_bound _ _ _ _ Hh).
  unfold on_client, pymongo.delete_one.
  destruct (update_documents_spec h (pymongo.remove_first key) (mongoClient self)
              eq_refl) as (c' & -> & _ & _ & _ & _ & _ & Hsame).
  rewrite Hsame by by apply remove_first_absent.
  by rewrite Hh, (rebind_bound _ _ Hh).
Qed.

(** X10. In a collection whose documents have distinct ids, [remove_core]
    removes the record: afterwards [get_core] on the id fails as for an id
    that was never there, and a lookup of any other id finds what it found
    before. *)
Theorem remove_core_then_get_core (collection_name collection_name' key : string)
    (with_embedding : bool) (self : MongoStoreApi) (h : pymongo.handle) :
  collection self = Some h →
  NoDup (ids_of h (mongoClient self)) →
  ∃ self1,
    remove_core collection_name key self = (Ok (), self1)
    ∧ get_core collection_name' key with_embedding self1
      = (Err TypeError_not_subscriptable, self1)
    ∧ ∀ key' p, key' ≠ key →
        pymongo.find_one h key' p (mongoClient self1)
        = pymongo.find_one h key' p (mongoClient self).
Proof.
  intros Hh Hnd. rewrite (remove_core_bound _ _ _ _ Hh).
  unfold on_client, pymongo.delete_one.
  destruct (update_documents_spec h (pymongo.remove_first key) (mongoClient self)
              eq_refl) as (c' & -> & Hdocs & _).
  rewrite Hh. eexists. split; [reflexivity|]. split.
  - rewrite (get_core_bound _ _ _
               {| collection := Some h; mongoClient := c' |} h eq_refl).
    simpl.
    assert (pymongo.find_one h key (negb with_embedding) c' = None) as ->; [|done].
    apply find_one_None. unfold ids_of. rewrite Hdocs.
    by apply remove_first_gone.
  - intros key' p Hne. simpl. unfold pymongo.find_one.
    by rewrite Hdocs, remove_first_other.
Qed.

Lemma filter_filter_none (keys : list string) (ds : list Doc.t) :
  List.filter (λ d, existsb (String.eqb (Doc._id d)) keys)
    (List.filter (λ d, negb (existsb (String.eqb (Doc._id d)) keys)) ds) = [].
Proof.
  induction ds as [|d ds IH]; simpl; [done|].
  destruct (existsb (String.eqb (Doc._id d)) keys) eqn:E; simpl; [done|].
  by rewrite E.
Qed.

Lemma filter_not_among_other key (keys : list string) (ds : list Doc.t) :
  key ∉ keys →
  List.filter (pymongo.has_id key)
    (List.filter (λ d, negb (existsb (String.eqb (Doc._id d)) keys)) ds)
  = List.filter (pymongo.has_id key) ds.
Proof.
  intros Hnot. induction ds as [|d ds IH]; simpl; [done|].
  destruct (existsb (String.eqb (Doc._id d)) keys) eqn:E; simpl.
  - unfold pymongo.has_id at 2.
    destruct (String.eqb_spec (Doc._id d) key) as [<-|_]; [|done].
    by apply existsb_eqb in E.
  - by rewrite IH.
Qed.

(** X9. [remove_batch_core] removes every document whose id is among
    [keys], present or not, without error: afterwards [get_batch_core] on the
    same keys returns the empty list, and a lookup of an id that is not
    among [keys] finds what it found before. *)
Theorem remove_batch_core_then_get_batch_core
    (collection_name collection_name' : string) (keys : list string)
    (with_embeddings : bool) (self : MongoStoreApi) (h : pymongo.handle) :
  collection self = Some h →
  ∃ self1,
    remove_batch_core collection_name keys self = (Ok (), self1)
    ∧ get_batch_core collection_name' keys with_embeddings self1 = (Ok [], self1)
    ∧ ∀ key p, key ∉ keys →
        pymongo.find_one h key p (mongoClient self1)
        = pymongo.find_one h key p (mongoClient self).
Proof.
  intros Hh. rewrite (remove_batch_core_bound _ _ _ _ Hh).
  unfold on_client, pymongo.delete_many.
  destruct (update_documents_spec h
              (List.filter (λ d, negb (existsb (String.eqb (Doc._id d)) keys)))
              (mongoClient self) eq_refl) as (c' & -> & Hdocs & _).
  rewrite Hh. eexists. split; [reflexivity|]. split.
  - rewrite (get_batch_core_bound _ _ _
               {| collection := Some h; mongoClient := c' |} h eq_refl).
    simpl. unfold pymongo.find. by rewrite Hdocs, filter_filter_none.
  - intros key p Hnot. simpl. unfold pymongo.find_one.
    by rewrite Hdocs, filter_not_among_other.
Qed.

(** ** The index and the collection *)

Lemma index_information_Some (h : pymongo.handle) c name info :
  pymongo.index_information h c !! name = Some info →
  ∃ col, collections c !! h = Some col ∧ indexes col !! name = Some info.
Proof.
  unfold pymongo.index_information.
  destruct (collections c !! h) as [col|]; [eauto|]. by rewrite lookup_empty.
Qed.

(** What [ensure] does on a client that passes its assertion. *)
Lemma ensure_mongos db coll num_lists similarity vector_dimensions self :
  is_mongos (mongoClient self) = true →
  ∃ c1,
    ensure db coll num_lists similarity vector_dimensions self
    = (Ok (), {| collection := Some (db, coll); mongoClient := c1 |})
    ∧ is_Some (collections c1 !! (db, coll))
    ∧ is_Some (pymongo.index_information (db, coll) c1 !! "embedding_cosmosSearch")
    ∧ (∀ h, documents (pymongo.lookup_collection h c1)
            = documents (pymongo.lookup_collection h (mongoClient self)))
    ∧ (∀ h name info,
         pymongo.index_information h (mongoClient self) !! name = Some info →
         pymongo.index_information h c1 !! name = Some info)
    ∧ is_mongos c1 = true.
Proof.
  intros Hm.
  destruct (pymongo.index_information (db, coll) (mongoClient self)
              !! "embedding_cosmosSearch") as [info|] eqn:Hinfo.
  - exists (mongoClient self). split; [apply ensure_index_present; eauto|].
    split; [|by rewrite Hinfo].
    apply index_information_Some in Hinfo as (col & Hcol & _). eauto.
  - pose proof (index_information_lookup _ _ Hinfo) as Hcol.
    unfold ensure. run_monad. rewrite Hm, Hinfo.
    unfold on_client, pymongo.command_createIndexes, pymongo.create_index.
    run_monad.
    unfold pymongo.lookup_collection in *. simpl. rewrite Hcol. simpl.
    eexists. split; [reflexivity|]. simpl.
    split; [by rewrite lookup_insert_eq|].
    split; [unfold pymongo.index_information; simpl;
            rewrite lookup_insert_eq; simpl; rewrite lookup_insert_eq; eauto|].
    split; [|split; [|done]].
    + intros h. destruct (decide ((db, coll) = h)) as [<-|Hne].
      * by rewrite lookup_insert_eq.
      * by rewrite lookup_insert_ne.
    + intros h name info.
      destruct (decide ((db, coll) = h)) as [<-|Hne];
        [|unfold pymongo.index_information; simpl].
      * intros Hname.
        apply index_information_Some in Hname as (col & E & Hname).
        unfold pymongo.index_information. simpl.
        rewrite lookup_insert_eq. simpl.
        rewrite E in Hcol |- *. simpl in *.
        rewrite lookup_insert_ne; [done|]. congruence.
      * by rewrite lookup_insert_ne.
Qed.

Lemma ensure_not_mongos db coll num_lists similarity vector_dimensions self :
  is_mongos (mongoClient self) = false →
  ensure db coll num_lists similarity vector_dimensions self
  = (Err AssertionError, self).
Proof. intros Hm. unfold ensure. run_monad. by rewrite Hm. Qed.

(** X16. [ensure] never touches a document: whatever its outcome, every
    collection has afterwards the documents it had, in the same order, and
    every index that was reported is still reported. *)
Theorem ensure_keeps_documents (cosmos_database_name cosmos_container_name : string)
    (num_lists : Z) (similarity : CosmosDBSimilarityType) (vector_dimensions : Z)
    (self self1 : MongoStoreApi) (res : result ()) :
  ensure cosmos_database_name cosmos_container_name num_lists similarity
    vector_dimensions self = (res, self1) →
  (∀ h, documents (pymongo.lookup_collection h (mongoClient self1))
        = documents (pymongo.lookup_collection h (mongoClient self)))
  ∧ (∀ h name info,
       pymongo.index_information h (mongoClient self) !! name = Some info →
       pymongo.index_information h (mongoClient self1) !! name = Some info).
Proof.
  intros E. destruct (is_mongos (mongoClient self)) eqn:Hm.
  - destruct (ensure_mongos cosmos_database_name cosmos_container_name num_lists
                similarity vector_dimensions self Hm)
      as (c1 & E1 & _ & _ & Hdocs & Hidx & _).
    rewrite E1 in E. by injection E as _ <-.
  - rewrite ensure_not_mongos in E by done. by injection E as _ <-.
Qed.

(** X12. [delete_collection_core], on an adapter bound to the configured
    container, drops it: afterwards [does_collection_exist_core] answers
    false, the collection has no index left (so not the vector index either),
    and the other collections are as they were. *)
Theorem delete_collection_core_drops
    (cosmos_database_name cosmos_container_name : string)
    (collection_name collection_name' : string) (self : MongoStoreApi) :
  collection self = Some (cosmos_database_name, cosmos_container_name) →
  ∃ self1,
    delete_collection_core collection_name self = (Ok (), self1)
    ∧ does_collection_exist_core cosmos_database_name cosmos_container_name
        collection_name' self1 = (Ok false, self1)
    ∧ pymongo.index_information (cosmos_database_name, cosmos_container_name)
        (mongoClient self1) = ∅
    ∧ ∀ h, h ≠ (cosmos_database_name, cosmos_container_name) →
           collections (mongoClient self1) !! h = collections (mongoClient self) !! h.
Proof.
  intros Hh. unfold delete_collection_core.
  rewrite (bind_ok _ _ _ _ _ (self_collection_bound _ _ _ Hh)).
  unfold on_client, pymongo.drop. simpl. eexists. split; [reflexivity|].
  split; [|split].
  - unfold does_collection_exist_core. run_monad. do 2 f_equal.
    apply bool_decide_eq_false. rewrite elem_of_list_collection_names. simpl.
    rewrite lookup_delete_eq. by intros [? ?].
  - unfold pymongo.index_information. simpl. by rewrite lookup_delete_eq.
  - intros h Hne. simpl. by rewrite lookup_delete_ne.
Qed.

(** X13. An adapter on which [ensure] never ran has no collection: every
    operation on records, and dropping the collection, raises
    [AttributeError] ([None] has no such method) and changes nothing. *)
Theorem unbound_adapter_raises
    (cosmosSearch : Collection → list float → nat → list (Doc.t * float))
    (collection_name key : string) (keys : list string)
    (record : MemoryRecord.t) (records : list MemoryRecord.t)
    (embedding : ndarray) (limit : nat) (min_relevance_score : float)
    (with_embedding : bool) (self : MongoStoreApi) :
  collection self = None →
  delete_collection_core collection_name self = (Err (AttributeError "drop"), self)
  ∧ upsert_core collection_name record self
    = (Err (AttributeError "insert_many"), self)
  ∧ upsert_batch_core collection_name records self
    = (Err (AttributeError "insert_many"), self)
  ∧ get_core collection_name key with_embedding self
    = (Err (AttributeError "find_one"), self)
  ∧ get_batch_core collection_name keys with_embedding self
    = (Err (AttributeError "find"), self)
  ∧ remove_core collection_name key self = (Err (AttributeError "delete_one"), self)
  ∧ remove_batch_core collection_name keys self
    = (Err (AttributeError "delete_many"), self)
  ∧ get_nearest_matches_core cosmosSearch collection_name embedding limit
      min_relevance_score with_embedding self
    = (Err (AttributeError "aggregate"), self)
  ∧ get_nearest_match_core cosmosSearch collection_name embedding
      min_relevance_score with_embedding self
    = (Err (AttributeError "aggregate"), self).
Proof.
  intros Hh.
  unfold delete_collection_core, upsert_core, upsert_batch_core, get_core,
    get_batch_core, remove_core, remove_batch_core, get_nearest_match_core,
    get_nearest_matches_core, self_collection.
  run_monad. rewrite Hh. by repeat split.
Qed.

(** ** Ids stay unique *)

Lemma unique_ids_sublist c c' :
  unique_ids c →
  (∀ h, ids_of h c' `sublist_of` ids_of h c) →
  unique_ids c'.
Proof. intros Hu Hsub h. eapply sublist_NoDup; [apply Hu | apply Hsub]. Qed.

Lemma ids_of_other (h h' : pymongo.handle) c c' :
  collections c' !! h' = collections c !! h' → ids_of h' c' = ids_of h' c.
Proof. intros E. unfold ids_of, pymongo.lookup_collection. by rewrite E. Qed.

Lemma unique_ids_appended h ds c c' :
  unique_ids c →
  appended h ds c c' →
  NoDup (Doc._id <$> ds) →
  Forall (λ d, Doc._id d ∉ ids_of h c) ds →
  unique_ids c'.
Proof.
  intros Hu Happ Hnd Hfresh h'. destruct (decide (h = h')) as [<-|Hne].
  - rewrite (appended_ids _ _ _ _ Happ). apply NoDup_app.
    split; [apply Hu|]. split; [|done].
    intros i Hi Hin. apply list_elem_of_fmap in Hin as (d & -> & Hd).
    by apply (proj1 (Forall_forall _ _) Hfresh d).
  - destruct Happ as (_ & _ & Hf & _). rewrite (ids_of_other h h' c c'); [apply Hu|].
    by apply Hf.
Qed.

Lemma unique_ids_update h f c c' :
  unique_ids c →
  pymongo.update_documents h f c = (Ok (), c') →
  f [] = [] →
  (∀ ds, f ds `sublist_of` ds) →
  unique_ids c'.
Proof.
  intros Hu E Hnil Hsub.
  destruct (update_documents_spec h f c Hnil) as (c1 & E1 & Hdocs & _ & Hf & _).
  rewrite E1 in E. injection E as <-.
  apply (unique_ids_sublist c c1 Hu). intros h'.
  destruct (decide (h = h')) as [<-|Hne].
  - unfold ids_of. rewrite Hdocs. apply fmap_sublist, Hsub.
  - rewrite (ids_of_other h h' c c1); [done | by apply Hf].
Qed.

Lemma filter_sublist {A} (f : A → bool) (l : list A) :
  List.filter f l `sublist_of` l.
Proof. induction l as [|x l IH]; simpl; [done|]. destruct (f x); by constructor. Qed.

Lemma upsert_batch_core_unique collection_name records self res self1 :
  unique_ids (mongoClient self) →
  upsert_batch_core collection_name records self = (res, self1) →
  unique_ids (mongoClient self1).
Proof.
  intros Hu E. destruct (collection self) as [h|] eqn:Hh.
  - rewrite (upsert_batch_core_bound _ _ _ _ Hh) in E.
    destruct records as [|r records].
    { simpl in E. by injection E as _ <-. }
    change (cosmosRecord <$> r :: records)
      with (cosmosRecord r :: (cosmosRecord <$> records)) in E.
    rewrite insert_many_cons in E.
    destruct (for_each_insert_one_spec h
                (cosmosRecord r :: (cosmosRecord <$> records)) (mongoClient self))
      as (res' & pre & post & c' & E' & _ & Happ & Hnd & Hall & _).
    rewrite E' in E.
    assert (mongoClient self1 = c') as -> by (destruct res'; by injection E as _ <-).
    by apply (unique_ids_appended h pre (mongoClient self)).
  - rewrite (upsert_batch_core_unbound _ _ _ Hh) in E. by injection E as _ <-.
Qed.

(** X11. No operation of the adapter makes two documents of a collection
    share an id: if the ids are unique in every collection before [ensure],
    an upsert of one record or of a batch (successful or not), a removal of
    one id or of several, or the drop of the collection, they are unique
    after it. *)
Theorem adapter_keeps_ids_unique
    (cosmos_database_name cosmos_container_name collection_name key : string)
    (keys : list string) (record : MemoryRecord.t) (records : list MemoryRecord.t)
    (num_lists : Z) (similarity : CosmosDBSimilarityType) (vector_dimensions : Z)
    (self : MongoStoreApi) :
  unique_ids (mongoClient self) →
  unique_ids (mongoClient
                (ensure cosmos_database_name cosmos_container_name num_lists
                   similarity vector_dimensions self).2)
  ∧ unique_ids (mongoClient (upsert_core collection_name record self).2)
  ∧ unique_ids (mongoClient (upsert_batch_core collection_name records self).2)
  ∧ unique_ids (mongoClient (remove_core collection_name key self).2)
  ∧ unique_ids (mongoClient (remove_batch_core collection_name keys self).2)
  ∧ unique_ids (mongoClient (delete_collection_core collection_name self).2).
Proof.
  intros Hu. repeat split.
  - destruct (ensure _ _ _ _ _ self) as [res self1] eqn:E.
    destruct (ensure_keeps_documents _ _ _ _ _ _ _ _ E) as [Hdocs _].
    intros h. unfold ids_of. simpl. rewrite Hdocs. apply Hu.
  - unfold upsert_core.
    destruct (upsert_batch_core collection_name [record] self)
      as [[ids|e] self1] eqn:E.
    + rewrite (bind_ok _ _ _ _ _ E).
      apply (upsert_batch_core_unique _ _ _ _ _ Hu) in E.
      by destruct (ids !! 0%nat).
    + rewrite (bind_err _ _ _ _ _ E).
      by apply (upsert_batch_core_unique _ _ _ _ _ Hu) in E.
  - destruct (upsert_batch_core _ _ self) as [res self1] eqn:E.
    by apply (upsert_batch_core_unique _ _ _ _ _ Hu) in E.
  - destruct (collection self) as [h|] eqn:Hh.
    + rewrite (remove_core_bound _ _ _ _ Hh). unfold on_client.
      destruct (pymongo.delete_one h key (mongoClient self)) as [res c'] eqn:E.
      simpl. unfold pymongo.delete_one in E.
      destruct (update_documents_spec h (pymongo.remove_first key)
                  (mongoClient self) eq_refl) as (c1 & E1 & _).
      rewrite E1 in E. injection E as <- <-.
      apply (unique_ids_update h _ _ _ Hu E1 eq_refl).
      apply remove_first_sublist.
    + unfold remove_core, self_collection. run_monad. by rewrite Hh.
  - destruct (collection self) as [h|] eqn:Hh.
    + rewrite (remove_batch_core_bound _ _ _ _ Hh). unfold on_client.
      destruct (pymongo.delete_many h keys (mongoClient self)) as [res c'] eqn:E.
      simpl. unfold pymongo.delete_many in E.
      destruct (update_documents_spec h
                  (List.filter (λ d, negb (existsb (String.eqb (Doc._id d)) keys)))
                  (mongoClient self) eq_refl) as (c1 & E1 & _).
      rewrite E1 in E. injection E as <- <-.
      apply (unique_ids_update h _ _ _ Hu E1 eq_refl).
      intros ds. apply filter_sublist.
    + unfold remove_batch_core, self_collection. run_monad. by rewrite Hh.
  - destruct (collection self) as [h|] eqn:Hh.
    + unfold delete_collection_core.
      rewrite (bind_ok _ _ _ _ _ (self_collection_bound _ _ _ Hh)).
      unfold on_client, pymongo.drop. simpl. intros h'.
      unfold ids_of, pymongo.lookup_collection. simpl.
      destruct (decide (h = h')) as [<-|Hne].
      * rewrite lookup_delete_eq. simpl. constructor.
      * rewrite lookup_delete_ne by done. apply Hu.
    + unfold delete_collection_core, self_collection. run_monad. by rewrite Hh.
Qed.

(** ** The factory, on the supported backend *)

(** X14. On the backend ["mongo-vcore"], with a client that passes the
    assertion of [ensure], [create] constructs exactly one client, for the
    configured connection string, and returns a facade whose adapter is bound
    to the configured container, with the vector index in place and the
    container existing; the documents of the server are untouched. *)
Theorem create_returns_ready_store
    (cosmos_connstr cosmos_database_name cosmos_container_name : string)
    (MongoClient_connect : string → MongoClient)
    (num_lists : Z) (similarity : CosmosDBSimilarityType) (vector_dimensions : Z)
    (collection_name : string) (w : World) :
  is_mongos (MongoClient_connect cosmos_connstr) = true →
  ∃ store,
    create "mongo-vcore" cosmos_connstr cosmos_database_name cosmos_container_name
      MongoClient_connect num_lists similarity vector_dimensions w
    = (Ok store, cosmos_connstr :: w)
    ∧ collection (cosmosStore store)
      = Some (cosmos_database_name, cosmos_container_name)
    ∧ is_Some (pymongo.index_information
                 (cosmos_database_name, cosmos_container_name)
                 (mongoClient (cosmosStore store)) !! "embedding_cosmosSearch")
    ∧ does_collection_exist_core cosmos_database_name cosmos_container_name
        collection_name (cosmosStore store)
      = (Ok true, cosmosStore store)
    ∧ ∀ h, documents (pymongo.lookup_collection h (mongoClient (cosmosStore store)))
           = documents (pymongo.lookup_collection h
                          (MongoClient_connect cosmos_connstr)).
Proof.
  intros Hm.
  destruct (ensure_mongos cosmos_database_name cosmos_container_name num_lists
              similarity vector_dimensions
              (MongoStoreApi_init (MongoClient_connect cosmos_connstr)) Hm)
    as (c1 & E & Hcol & Hidx & Hdocs & _).
  unfold create. simpl. unfold MongoClient_new. run_monad. rewrite E.
  eexists. split; [reflexivity|]. simpl. split; [done|]. split; [done|].
  split; [|done].
  unfold does_collection_exist_core. run_monad. do 2 f_equal.
  apply bool_decide_eq_true. by apply elem_of_list_collection_names.
Qed.

(** X15. On the backend ["mongo-vcore"], with a client that fails the
    assertion of [ensure], [create] raises [AssertionError] after the client
    was constructed, and returns no facade. *)
Theorem create_assertion_fails
    (cosmos_connstr cosmos_database_name cosmos_container_name : string)
    (MongoClient_connect : string → MongoClient)
    (num_lists : Z) (similarity : CosmosDBSimilarityType) (vector_dimensions : Z)
    (w : World) :
  is_mongos (MongoClient_connect cosmos_connstr) = false →
  create "mongo-vcore" cosmos_connstr cosmos_database_name cosmos_container_name
    MongoClient_connect num_lists similarity vector_dimensions w
  = (Err AssertionError, cosmos_connstr :: w).
Proof.
  intros Hm. unfold create. simpl. unfold MongoClient_new. run_monad.
  by rewrite ensure_not_mongos.
Qed.

(** ** The nearest match *)

Lemma surviving_nil min_relevance_score aggs :
  surviving min_relevance_score aggs = []
  ↔ Forall (λ agg, SFltb (similarityScore agg) min_relevance_score = true) aggs.
Proof.
  unfold surviving. induction aggs as [|agg aggs IH]; simpl.
  - split; [constructor | done].
  - destruct (SFltb (similarityScore agg) min_relevance_score) eqn:E; simpl.
    + rewrite IH. split; [by constructor | by intros [_ ?]%Forall_cons].
    + split; [done | intros [? _]%Forall_cons; congruence].
Qed.

(** X17. When every candidate the database returns for [k = 1] carries the
    keys a read subscripts, [get_nearest_match_core] returns, leaving the
    state unchanged: [None] exactly when every candidate scores strictly
    less than [min_relevance_score], and otherwise the first candidate that
    does not. *)
Theorem get_nearest_match_core_result
    (cosmosSearch : Collection → list float → nat → list (Doc.t * float))
    (collection_name : string) (embedding : ndarray) (min_relevance_score : float)
    (with_embedding : bool) (self : MongoStoreApi) (h : pymongo.handle) :
  collection self = Some h →
  Forall (λ agg, has_keys with_embedding (document agg) = true)
    (aggregate cosmosSearch h (tolist embedding) 1 (mongoClient self)) →
  ∃ o,
    get_nearest_match_core cosmosSearch collection_name embedding
      min_relevance_score with_embedding self = (Ok o, self)
    ∧ (o = None
       ↔ Forall (λ agg, SFltb (similarityScore agg) min_relevance_score = true)
           (aggregate cosmosSearch h (tolist embedding) 1 (mongoClient self)))
    ∧ ∀ p, o = Some p →
           ∃ agg, head (surviving min_relevance_score
                          (aggregate cosmosSearch h (tolist embedding) 1
                             (mongoClient self))) = Some agg
                  ∧ is_candidate p agg.
Proof.
  intros Hh Hkeys.
  destruct (nearest_results_loop_ok (S:=MongoStoreApi) min_relevance_score
              with_embedding _ self Hkeys) as (nearest & E & Hall).
  assert (get_nearest_matches_core cosmosSearch collection_name embedding 1
            min_relevance_score with_embedding self = (Ok nearest, self)) as Em.
  { unfold get_nearest_matches_core.
    by rewrite (bind_ok _ _ _ _ _ (self_collection_bound _ _ _ Hh)). }
  unfold get_nearest_match_core. rewrite (bind_ok _ _ _ _ _ Em).
  remember (surviving min_relevance_score
              (aggregate cosmosSearch h (tolist embedding) 1 (mongoClient self)))
    as kept eqn:Hkept.
  symmetry in Hkept.
  destruct Hall as [|p agg nearest aggs Hp Hall]; simpl.
  - exists None. split; [done|]. split; [|done].
    split; [intros _; by apply surviving_nil | done].
  - exists (Some p). split; [done|]. split.
    + split; [done|]. intros Hbelow%surviving_nil. congruence.
    + intros p' [= <-]. eauto.
Qed.

Lemma record_of_document_lacks_timestamp {S} id w d (s : S) :
  lacks_only_timestamp w d = true →
  record_of_document id w d s = (Err (KeyError "timestamp"), s).
Proof.
  destruct d as [? [e|] [?|] [?|] [?|] [?|]]; destruct w; try discriminate;
    reflexivity.
Qed.

Lemma nearest_results_loop_lacks_timestamp {S} min_relevance_score w pre agg post
    (s : S) :
  Forall (λ a, has_keys w (document a) = true) pre →
  lacks_only_timestamp w (document agg) = true →
  nearest_results_loop min_relevance_score w (pre ++ agg :: post) s
  = (Err (KeyError "timestamp"), s).
Proof.
  intros Hpre Hagg. induction Hpre as [|a pre Ha _ IH]; simpl.
  - by rewrite (bind_err _ _ _ _ _ (record_of_document_lacks_timestamp _ _ _ s Hagg)).
  - destruct (record_of_document_ok (agg_id a) w (document a) s Ha) as (r & Er & _).
    rewrite (bind_ok _ _ _ _ _ Er).
    destruct (SFltb (similarityScore a) min_relevance_score); [done|].
    by rewrite (bind_err _ _ _ _ _ IH).
Qed.

(** X18. One candidate without a timestamp is enough to fail a search: when
    the first candidate that lacks a key lacks only ["timestamp"],
    [get_nearest_matches_core] raises [KeyError] for ["timestamp"] whatever
    the threshold, so also when that candidate scores below it and would
    have been discarded. *)
Theorem get_nearest_matches_core_lacks_timestamp
    (cosmosSearch : Collection → list float → nat → list (Doc.t * float))
    (collection_name : string) (embedding : ndarray) (limit : nat)
    (min_relevance_score : float) (with_embeddings : bool)
    (self : MongoStoreApi) (h : pymongo.handle)
    (pre post : list aggResult) (agg : aggResult) :
  collection self = Some h →
  aggregate cosmosSearch h (tolist embedding) limit (mongoClient self)
  = (pre ++ agg :: post)%list →
  Forall (λ a, has_keys with_embeddings (document a) = true) pre →
  lacks_only_timestamp with_embeddings (document agg) = true →
  get_nearest_matches_core cosmosSearch collection_name embedding limit
    min_relevance_score with_embeddings self
  = (Err (KeyError "timestamp"), self).
Proof.
  intros Hh Hagg Hpre Hlacks. unfold get_nearest_matches_core.
  rewrite (bind_ok _ _ _ _ _ (self_collection_bound _ _ _ Hh)).
  run_monad. rewrite Hagg. by apply nearest_results_loop_lacks_timestamp.
Qed.

(** ** [cosmosdb_utils] *)

Lemma truthy_iff s : truthy s = true ↔ s ≠ "".
Proof. unfold truthy. destruct (String.eqb_spec s ""); naive_solver. Qed.

Lemma get_mongodb_search_client_unfold
    (MongoClient_connect : string → MongoClient_outcome)
    (environ : gmap string string)
    (connection_string : string) :
  get_mongodb_search_client MongoClient_connect environ connection_string
  = if truthy connection_string then inr (MongoClient_connect connection_string)
    else match environ !! "AZCOSMOS_CONNSTR" with
         | Some v =>
             if truthy v then inr (MongoClient_connect v)
             else inl (ServiceInitializationError_of
                         "Error: missing Azure Cosmos Mongo vCore Connection String")
         | None =>
             inl (ServiceInitializationError_of
                    "Error: missing Azure Cosmos Mongo vCore Connection String")
         end.
Proof.
  unfold get_mongodb_search_client.
  destruct (truthy connection_string) eqn:Hc; [by rewrite Hc|].
  destruct (environ !! "AZCOSMOS_CONNSTR") as [v|]; simpl; [|done].
  destruct (truthy v) eqn:Hv; [by rewrite Hv | done].
Qed.

(** X21. [get_mongodb_search_client] hands the connection string it is
    given to [MongoClient] when that string is not empty, whatever the
    environment holds, and then returns or raises what the constructor does;
    it hands over the value of [AZCOSMOS_CONNSTR] when the argument is empty
    and the variable is set and not empty; it raises the "missing connection
    string" error exactly when the argument is empty and the variable is
    unset or empty; and it never raises its second error, "unable to
    create". *)
Theorem get_mongodb_search_client_cases
    (MongoClient_connect : string → MongoClient_outcome)
    (environ : gmap string string)
    (connection_string : string) :
  (connection_string ≠ "" →
   get_mongodb_search_client MongoClient_connect environ connection_string
   = inr (MongoClient_connect connection_string))
  ∧ (∀ v, environ !! "AZCOSMOS_CONNSTR" = Some v → v ≠ "" →
          get_mongodb_search_client MongoClient_connect environ ""
          = inr (MongoClient_connect v))
  ∧ ((∃ e, get_mongodb_search_client MongoClient_connect environ connection_string
           = inl e)
     ↔ connection_string = ""
       ∧ (environ !! "AZCOSMOS_CONNSTR" = None
          ∨ environ !! "AZCOSMOS_CONNSTR" = Some ""))
  ∧ get_mongodb_search_client MongoClient_connect environ connection_string
    ≠ inl (ServiceInitializationError_of
             "Error: unable to create Azure Cosmos Mongo vCore Vector DB client.").
Proof.
  rewrite !get_mongodb_search_client_unfold.
  split; [|split; [|split; [split|]]].
  - intros Hne. apply truthy_iff in Hne. by rewrite Hne.
  - intros v Hv Hne. apply truthy_iff in Hne. simpl. by rewrite Hv, Hne.
  - intros [e He]. destruct (truthy connection_string) eqn:Hc; [done|].
    assert (connection_string = "") as ->.
    { destruct (decide (connection_string = "")) as [|Hne]; [done|].
      apply truthy_iff in Hne. congruence. }
    split; [done|].
    destruct (environ !! "AZCOSMOS_CONNSTR") as [v|]; [|by left].
    destruct (truthy v) eqn:Hv; [done|]. right. f_equal.
    destruct (decide (v = "")) as [|Hne]; [done|]. apply truthy_iff in Hne.
    congruence.
  - intros [-> [Hv|Hv]]; simpl; rewrite Hv; simpl; eauto.
  - destruct (truthy connection_string); [done|].
    destruct (environ !! "AZCOSMOS_CONNSTR") as [v|]; [|done].
    by destruct (truthy v).
Qed.

(** ** The fixtures of the test *)

(** X22. [create_embedding] returns five floats, all 0.0 but a single 1.0:
    at index [non_zero_pos - 1] for a position from 1 to 5 and, the index
    then counting from the end, at index [non_zero_pos + 4] for a position
    from -4 to 0; any other position raises [IndexError]. *)
Theorem create_embedding_cases (non_zero_pos : Z) :
  ((non_zero_pos < -4 ∨ 5 < non_zero_pos)%Z →
   create_embedding non_zero_pos = Err IndexError)
  ∧ ((-4 ≤ non_zero_pos ≤ 5)%Z →
     ∃ e, create_embedding non_zero_pos = Ok e
          ∧ length e = 5%nat
          ∧ ∀ j, (j < 5)%nat →
                 e !! j = Some (if decide (Z.of_nat j = (non_zero_pos - 1) mod 5)%Z
                                then f1 else f0)).
Proof.
  split.
  - intros Hout. unfold create_embedding.
    destruct ((0 <=? non_zero_pos - 1) && (non_zero_pos - 1 <? 5))%Z eqn:E1;
      [lia|].
    destruct ((-5 <=? non_zero_pos - 1) && (non_zero_pos - 1 <? 0))%Z eqn:E2;
      [lia | done].
  - intros Hin.
    assert (∃ n, (n < 10)%nat ∧ non_zero_pos = (Z.of_nat n - 4)%Z) as (n & Hn & ->)
      by (exists (Z.to_nat (non_zero_pos + 4)); lia).
    do 10 (destruct n as [|n];
           [eexists; split; [reflexivity|]; split; [reflexivity|];
            intros j Hj; do 5 (destruct j as [|j]; [reflexivity|]); lia|]).
    lia.
Qed.

(** ** The serialized metadata loses nothing *)

Lemma append_cons c (s u : string) : String c s ++ u = String c (s ++ u).
Proof. reflexivity. Qed.

Lemma append_assoc (s1 s2 s3 : string) : (s1 ++ s2) ++ s3 = s1 ++ (s2 ++ s3).
Proof.
  induction s1 as [|c s1 IH]; [done|]. rewrite !append_cons. by rewrite IH.
Qed.

Lemma append_inv_head (s u u' : string) : s ++ u = s ++ u' → u = u'.
Proof.
  induction s as [|c s IH]; [done|]. rewrite !append_cons. intros [= E].
  by apply IH.
Qed.

Lemma mismatch_append s1 s2 u u' : mismatch s1 s2 = true → s1 ++ u ≠ s2 ++ u'.
Proof.
  revert s2. induction s1 as [|a s1 IH]; intros [|b s2]; simpl; try done.
  rewrite !append_cons. destruct (Ascii.eqb_spec a b) as [->|Hne].
  - intros Hm [= E]. by apply (IH s2).
  - intros _ [= E _]. done.
Qed.

(** The codes of the characters. *)
Lemma N_of_ascii_in_codes c : N_of_ascii c ∈ N.of_nat <$> seq 0 256.
Proof.
  apply list_elem_of_fmap. exists (N.to_nat (N_of_ascii c)).
  pose proof (N_ascii_bounded c). split; [lia|].
  apply list_elem_of_In, in_seq. lia.
Qed.

(** The escapes of two different characters differ at a position both
    have: no escape is the beginning of another. *)
Lemma escape_mismatch c c' :
  c ≠ c' → mismatch (json.escape c) (json.escape c') = true.
Proof.
  assert (forallb
            (λ n, forallb
                    (λ m, (n =? m)%N
                          || mismatch (json.escape (ascii_of_N n))
                               (json.escape (ascii_of_N m)))
                    (N.of_nat <$> seq 0 256))
            (N.of_nat <$> seq 0 256) = true) as Hall by (vm_compute; reflexivity).
  intros Hne. rewrite forallb_forall in Hall.
  specialize (Hall (N_of_ascii c)
                (proj1 (list_elem_of_In _ _) (N_of_ascii_in_codes c))).
  rewrite forallb_forall in Hall.
  specialize (Hall (N_of_ascii c')
                (proj1 (list_elem_of_In _ _) (N_of_ascii_in_codes c'))).
  rewrite !ascii_N_embedding in Hall.
  apply orb_true_iff in Hall as [Heq|Hm]; [|done].
  apply N.eqb_eq in Heq. destruct Hne.
  by rewrite <- (ascii_N_embedding c), <- (ascii_N_embedding c'), Heq.
Qed.

(** No escape begins with a double quote. *)
Lemma escape_mismatch_dquote c :
  mismatch (json.escape c) (String json.dquote "") = true.
Proof.
  assert (forallb
            (λ n, mismatch (json.escape (ascii_of_N n)) (String json.dquote ""))
            (N.of_nat <$> seq 0 256) = true) as Hall by (vm_compute; reflexivity).
  rewrite forallb_forall in Hall.
  specialize (Hall (N_of_ascii c)
                (proj1 (list_elem_of_In _ _) (N_of_ascii_in_codes c))).
  by rewrite ascii_N_embedding in Hall.
Qed.

(** An escaped string followed by a double quote can be read back. *)
Lemma escape_all_inj s s' r r' :
  json.escape_all s ++ String json.dquote r
  = json.escape_all s' ++ String json.dquote r' →
  s = s' ∧ r = r'.
Proof.
  revert s'. induction s as [|c s IH]; intros [|c' s']; simpl.
  - by intros [= ->].
  - rewrite append_assoc. intros E. symmetry in E.
    by apply (mismatch_append _ (String json.dquote "") _ r
                (escape_mismatch_dquote c')) in E.
  - rewrite append_assoc. intros E.
    by apply (mismatch_append _ (String json.dquote "") _ r'
                (escape_mismatch_dquote c)) in E.
  - rewrite !append_assoc. intros E.
    destruct (decide (c = c')) as [<-|Hne].
    + apply append_inv_head in E. apply IH in E as [-> ->]. done.
    + by apply (mismatch_append _ _ _ _ (escape_mismatch c c' Hne)) in E.
Qed.

Lemma quoted_inj s s' rest rest' :
  String json.dquote (json.escape_all s ++ String json.dquote "") ++ rest
  = String json.dquote (json.escape_all s' ++ String json.dquote "") ++ rest' →
  s = s' ∧ rest = rest'.
Proof.
  rewrite !append_cons. intros [= E]. rewrite !append_assoc in E.
  by apply escape_all_inj in E.
Qed.

(** X23. On records whose text, description and additional metadata have
    only characters of code point 0 to 255 (the strings of this model), the
    serialized metadata loses nothing: two such records with the same
    serialized metadata have the same text, the same description and the
    same additional metadata. Nothing is said of other strings. *)
Theorem serialize_metadata_inj (r r' : MemoryRecord.t) :
  __serialize_metadata r = __serialize_metadata r' →
  MemoryRecord.text r = MemoryRecord.text r'
  ∧ MemoryRecord.description r = MemoryRecord.description r'
  ∧ MemoryRecord.additional_metadata r = MemoryRecord.additional_metadata r'.
Proof.
  unfold __serialize_metadata, json.dumps, json.dumps_items, json.dumps_opt_str.
  unfold json.quoted at 6 4 2 12 10 8.
  intros E. rewrite !append_assoc in E.
  do 3 apply append_inv_head in E. apply quoted_inj in E as [Ht E].
  do 3 apply append_inv_head in E. apply quoted_inj in E as [Hd E].
  do 3 apply append_inv_head in E. apply quoted_inj in E as [Ha _].
  done.
Qed.

(** ** Through the facade *)

(** X24. Through the facade, whatever collection names the caller passes:
    after [upsert_async] succeeded for a record that carries a timestamp,
    [get_async] on its id with the embedding returns, leaving the facade
    unchanged, a record equal to it in id, embedding, text and description,
    whose additional metadata is the serialized metadata; of its timestamp
    nothing is said. *)
Theorem facade_upsert_then_get
    (cosmos_database_name cosmos_container_name : string)
    (cosmosSearch : Collection → list float → nat → list (Doc.t * float))
    (collection_name collection_name' : string) (record : MemoryRecord.t)
    (store store1 : AzureCosmosDBMemoryStore MongoStoreApi) (doc_id : string) :
  is_Some (MemoryRecord.timestamp record) →
  upsert_async
    (api := MongoStoreApi_api cosmos_database_name cosmos_container_name
              cosmosSearch)
    collection_name record store = (Ok doc_id, store1) →
  ∃ r,
    get_async
      (api := MongoStoreApi_api cosmos_database_name cosmos_container_name
                cosmosSearch)
      collection_name' (MemoryRecord.id record) true store1
    = (Ok r, store1)
    ∧ untimed r
      = (MemoryRecord.id record, MemoryRecord.embedding record,
         MemoryRecord.text record, MemoryRecord.description record,
         __serialize_metadata record).
Proof.
  intros [ts Hts] E. unfold upsert_async, get_async, on_store in *.
  simpl in *.
  destruct (upsert_core str record (cosmosStore store)) as [res self1] eqn:Eu.
  injection E as -> <-. simpl.
  apply upsert_core_inv in Eu as (_ & h & _ & Hh & Hfind).
  rewrite (get_core_bound _ _ _ _ _ Hh). simpl. rewrite Hfind. simpl.
  rewrite cosmosRecord_id. unfold cosmosRecord. rewrite Hts.
  eexists. split; reflexivity.
Qed.

(** ** The list of collections *)

Lemma list_collection_names_NoDup db c :
  NoDup (pymongo.list_collection_names db c).
Proof.
  unfold pymongo.list_collection_names.
  apply NoDup_fmap_2_strong.
  - intros [db1 n1] [db2 n2] H1%list_elem_of_filter H2%list_elem_of_filter.
    simpl in *. destruct H1 as [-> _], H2 as [-> _]. by intros ->.
  - apply NoDup_filter, NoDup_fst_map_to_list.
Qed.

(** X25. [get_collections_core] lists, without repetition, exactly the
    collections that exist in the configured database: a name is listed if
    and only if the server has a collection of that name in that database;
    the state is unchanged. *)
Theorem get_collections_core_lists_database
    (cosmos_database_name : string) (self : MongoStoreApi) :
  ∃ names,
    get_collections_core cosmos_database_name self = (Ok names, self)
    ∧ NoDup names
    ∧ ∀ name, name ∈ names
              ↔ is_Some (collections (mongoClient self)
                           !! (cosmos_database_name, name)).
Proof.
  eexists. split; [reflexivity|]. split.
  - apply list_collection_names_NoDup.
  - intros name. apply elem_of_list_collection_names.
Qed.

(** ** Searching without the embeddings *)

Lemma nearest_results_loop_inv {S} min_relevance_score aggs (s s' : S) nearest :
  nearest_results_loop min_relevance_score false aggs s = (Ok nearest, s') →
  s' = s ∧ Forall (λ p, MemoryRecord.embedding p.1 = []) nearest.
Proof.
  revert s' nearest.
  induction aggs as [|agg aggs IH]; simpl; intros s' nearest E.
  - by injection E as <- <-.
  - apply bind_inv_ok in E as (r & s1 & Er & E).
    apply record_of_document_inv in Er as (-> & _ & Hemb).
    destruct (SFltb (similarityScore agg) min_relevance_score).
    + by apply IH.
    + apply bind_inv_ok in E as (nearest' & s2 & E' & E).
      apply IH in E' as (-> & Hall). injection E as <- <-.
      split; [done|]. constructor; [by apply Hemb | done].
Qed.

(** X26. A search that does not ask for the embeddings returns none: every
    record that [get_nearest_matches_core] returns with
    [with_embeddings = False] has the empty embedding, and the state is
    unchanged. *)
Theorem get_nearest_matches_core_without_embeddings
    (cosmosSearch : Collection → list float → nat → list (Doc.t * float))
    (collection_name : string) (embedding : ndarray) (limit : nat)
    (min_relevance_score : float) (self self' : MongoStoreApi)
    (nearest : list (MemoryRecord.t * float)) :
  get_nearest_matches_core cosmosSearch collection_name embedding limit
    min_relevance_score false self = (Ok nearest, self') →
  self' = self ∧ Forall (λ p, MemoryRecord.embedding p.1 = []) nearest.
Proof.
  unfold get_nearest_matches_core. intros E.
  apply bind_inv_ok in E as (h & s1 & Eh & E).
  apply self_collection_inv in Eh as [_ ->].
  revert E. run_monad. apply nearest_results_loop_inv.
Qed.

(** ** The parameters of the index *)

(** X27. [ensure] configures the index only when it creates it: on a client
    that passes the assertion, when the collection has no index
    ["embedding_cosmosSearch"], the index is created on the key
    ["embedding"] with the kind ["vector-ivf"] (the value of [VECTOR_IVF])
    and the list count, similarity and dimensions given; when it has one,
    the index keeps the definition it had, whatever parameters are given. *)
Theorem ensure_index_parameters
    (cosmos_database_name cosmos_container_name : string)
    (num_lists : Z) (similarity : CosmosDBSimilarityType) (vector_dimensions : Z)
    (self : MongoStoreApi) :
  is_mongos (mongoClient self) = true →
  ∃ self1,
    ensure cosmos_database_name cosmos_container_name num_lists similarity
      vector_dimensions self = (Ok (), self1)
    ∧ pymongo.index_information (cosmos_database_name, cosmos_container_name)
        (mongoClient self1) !! "embedding_cosmosSearch"
      = Some (default
                (search_index ("embedding", "cosmosSearch")
                   {| kind := CosmosDBVectorSearchType_value VECTOR_IVF;
                      numLists := num_lists;
                      similarity := similarity;
                      dimensions := vector_dimensions |})
                (pymongo.index_information
                   (cosmos_database_name, cosmos_container_name)
                   (mongoClient self) !! "embedding_cosmosSearch")).
Proof.
  intros Hm.
  destruct (pymongo.index_information
              (cosmos_database_name, cosmos_container_name) (mongoClient self)
              !! "embedding_cosmosSearch") as [info|] eqn:Hinfo.
  - eexists. split; [apply ensure_index_present; eauto|]. simpl. by rewrite Hinfo.
  - pose proof (index_information_lookup _ _ Hinfo) as Hcol.
    unfold ensure. run_monad. rewrite Hm, Hinfo.
    unfold on_client, pymongo.command_createIndexes, pymongo.create_index.
    run_monad.
    unfold pymongo.lookup_collection in *. simpl. rewrite Hcol. simpl.
    eexists. split; [reflexivity|]. simpl.
    unfold pymongo.index_information. simpl.
    rewrite lookup_insert_eq. simpl. by rewrite lookup_insert_eq.
Qed.

(** * The further properties at sample inputs *)

(** Decides a closed decidable proposition by computation. *)
Ltac decide_by_compute := apply (bool_decide_unpack _); vm_compute; reflexivity.

Lemma upsert_batch_core_returns_ids_witness :
  ["test_id1"; "test_id2"] = MemoryRecord.id <$> [record1_dated; record2_dated].
Proof.
  refine (proj1 (upsert_batch_core_returns_ids "sk_python_container"
                   [record1_dated; record2_dated] sample_store sample_store_two
                   ["test_id1"; "test_id2"] _)).
  vm_compute. reflexivity.
Defined.

Lemma upsert_batch_core_succeeds_witness :
  ∃ self1,
    upsert_batch_core "sk_python_container" [record1_dated; record2_dated]
      sample_store
    = (Ok (MemoryRecord.id <$> [record1_dated; record2_dated]), self1)
    ∧ collection self1 = Some ("sk_python_db", "sk_python_container")
    ∧ appended ("sk_python_db", "sk_python_container")
        (cosmosRecord <$> [record1_dated; record2_dated])
        (mongoClient sample_store) (mongoClient self1).
Proof.
  apply (upsert_batch_core_succeeds "sk_python_container"
           [record1_dated; record2_dated] sample_store
           ("sk_python_db", "sk_python_container")).
  - reflexivity.
  - discriminate.
  - decide_by_compute.
  - decide_by_compute.
Defined.

Lemma upsert_batch_core_empty_witness :
  upsert_batch_core "sk_python_container" [] sample_store
  = (Err TypeError_empty_documents, sample_store).
Proof.
  apply (upsert_batch_core_empty "sk_python_container" sample_store
           ("sk_python_db", "sk_python_container")).
  reflexivity.
Defined.

Lemma upsert_core_same_id_twice_witness :
  upsert_core "sk_python_container" record1 sample_store_dated
  = (Err BulkWriteError, sample_store_dated).
Proof.
  apply (upsert_core_same_id_twice "sk_python_container" "sk_python_container"
           record1_dated record1 sample_store sample_store_dated "test_id1").
  - vm_compute. reflexivity.
  - reflexivity.
Defined.

Lemma upsert_batch_core_partial_write_witness :
  ∃ self1,
    upsert_batch_core "sk_python_container" [record2_dated; record1_dated]
      sample_store_dated
    = (Err BulkWriteError, self1)
    ∧ collection self1 = Some ("sk_python_db", "sk_python_container")
    ∧ appended ("sk_python_db", "sk_python_container")
        (cosmosRecord <$> [record2_dated])
        (mongoClient sample_store_dated) (mongoClient self1).
Proof.
  apply (upsert_batch_core_partial_write "sk_python_container"
           [record2_dated] [] record1_dated sample_store_dated
           ("sk_python_db", "sk_python_container")).
  - reflexivity.
  - decide_by_compute.
  - decide_by_compute.
  - decide_by_compute.
Defined.

Lemma get_batch_core_returns_stored_keys_witness :
  Forall (λ r, MemoryRecord.id r ∈ ["test_id2"; "test_id3"])
    [read_back record2_dated].
Proof.
  refine (proj1 (proj2 (get_batch_core_returns_stored_keys "sk_python_container"
                          ["test_id2"; "test_id3"] true sample_store_two
                          sample_store_two [read_back record2_dated] _))).
  vm_compute. reflexivity.
Defined.

Lemma get_batch_core_no_match_witness :
  get_batch_core "sk_python_container" ["test_id3"] true sample_store_two
  = (Ok [], sample_store_two).
Proof.
  apply (get_batch_core_no_match "sk_python_container" ["test_id3"] true
           sample_store_two ("sk_python_db", "sk_python_container")).
  - reflexivity.
  - decide_by_compute.
Defined.

Lemma remove_core_absent_id_witness :
  remove_core "sk_python_container" "test_id3" sample_store_two
  = (Ok (), sample_store_two).
Proof.
  apply (remove_core_absent_id "sk_python_container" "test_id3" sample_store_two
           ("sk_python_db", "sk_python_container")).
  - reflexivity.
  - decide_by_compute.
Defined.

Lemma remove_batch_core_then_get_batch_core_witness :
  ∃ self1,
    remove_batch_core "sk_python_container" ["test_id1"; "test_id2"]
      sample_store_two = (Ok (), self1)
    ∧ get_batch_core "sk_python_container" ["test_id1"; "test_id2"] true self1
      = (Ok [], self1).
Proof.
  destruct (remove_batch_core_then_get_batch_core "sk_python_container"
              "sk_python_container" ["test_id1"; "test_id2"] true
              sample_store_two ("sk_python_db", "sk_python_container") eq_refl)
    as (self1 & E1 & E2 & _).
  exists self1. split; [exact E1 | exact E2].
Defined.

Lemma remove_core_then_get_core_witness :
  ∃ self1,
    remove_core "sk_python_container" "test_id1" sample_store_two = (Ok (), self1)
    ∧ get_core "sk_python_container" "test_id1" true self1
      = (Err TypeError_not_subscriptable, self1).
Proof.
  destruct (remove_core_then_get_core "sk_python_container" "sk_python_container"
              "test_id1" true sample_store_two
              ("sk_python_db", "sk_python_container") eq_refl)
    as (self1 & E1 & E2 & _).
  - decide_by_compute.
  - exists self1. split; [exact E1 | exact E2].
Defined.

Lemma unique_ids_empty_server : unique_ids empty_server.
Proof.
  intros h. unfold ids_of, pymongo.lookup_collection. simpl.
  rewrite lookup_empty. constructor.
Qed.

Lemma adapter_keeps_ids_unique_witness :
  NoDup
    (ids_of ("sk_python_db", "sk_python_container")
       (mongoClient
          (upsert_batch_core "sk_python_container" [record1_dated; record2_dated]
             sample_store).2)).
Proof.
  refine (proj1 (proj2 (proj2
            (adapter_keeps_ids_unique "sk_python_db" "sk_python_container"
               "sk_python_container" "test_id1" ["test_id1"] record1_dated
               [record1_dated; record2_dated] 100 COS 1536 sample_store _)))
            ("sk_python_db", "sk_python_container")).
  exact unique_ids_empty_server.
Defined.

Lemma delete_collection_core_drops_witness :
  ∃ self1,
    delete_collection_core "sk_python_container" sample_store_two = (Ok (), self1)
    ∧ does_collection_exist_core "sk_python_db" "sk_python_container"
        "sk_python_container" self1 = (Ok false, self1).
Proof.
  destruct (delete_collection_core_drops "sk_python_db" "sk_python_container"
              "sk_python_container" "sk_python_container" sample_store_two
              eq_refl) as (self1 & E1 & E2 & _).
  exists self1. split; [exact E1 | exact E2].
Defined.

Lemma unbound_adapter_raises_witness :
  get_core "sk_python_container" "test_id1" true (MongoStoreApi_init empty_server)
  = (Err (AttributeError "find_one"), MongoStoreApi_init empty_server).
Proof.
  refine (proj1 (proj2 (proj2 (proj2
            (unbound_adapter_raises sample_search "sk_python_container" "test_id1"
               ["test_id1"] record1 [record1] [f0; f1; f0; f0; f0] 3 f0 true
               (MongoStoreApi_init empty_server) _))))).
  reflexivity.
Defined.

Lemma create_returns_ready_store_witness :
  ∃ store,
    create "mongo-vcore" "mongodb://localhost" "sk_python_db" "sk_python_container"
      (λ _, empty_server) 100 COS 1536 []
    = (Ok store, ["mongodb://localhost"])
    ∧ collection (cosmosStore store) = Some ("sk_python_db", "sk_python_container").
Proof.
  destruct (create_returns_ready_store "mongodb://localhost" "sk_python_db"
              "sk_python_container" (λ _, empty_server) 100 COS 1536
              "sk_python_container" [] eq_refl) as (store & E & Hh & _).
  exists store. split; [exact E | exact Hh].
Defined.

Lemma create_assertion_fails_witness :
  create "mongo-vcore" "mongodb://localhost" "sk_python_db" "sk_python_container"
    (λ _, plain_server) 100 COS 1536 []
  = (Err AssertionError, ["mongodb://localhost"]).
Proof.
  apply (create_assertion_fails "mongodb://localhost" "sk_python_db"
           "sk_python_container" (λ _, plain_server) 100 COS 1536 []).
  reflexivity.
Defined.

Lemma ensure_keeps_documents_witness :
  documents
    (pymongo.lookup_collection ("sk_python_db", "sk_python_container")
       (mongoClient
          (ensure "sk_python_db" "sk_python_container" 100 COS 1536
             sample_store_two).2))
  = documents
      (pymongo.lookup_collection ("sk_python_db", "sk_python_container")
         (mongoClient sample_store_two)).
Proof.
  refine (proj1 (ensure_keeps_documents "sk_python_db" "sk_python_container"
                   100 COS 1536 sample_store_two
                   (ensure "sk_python_db" "sk_python_container" 100 COS 1536
                      sample_store_two).2
                   (ensure "sk_python_db" "sk_python_container" 100 COS 1536
                      sample_store_two).1 _)
            ("sk_python_db", "sk_python_container")).
  vm_compute. reflexivity.
Defined.

Lemma get_nearest_match_core_result_witness :
  ∃ o,
    get_nearest_match_core sample_search "sk_python_container"
      [f0; f1; f0; f0; f0] f1 true sample_store_two = (Ok o, sample_store_two)
    ∧ (o = None
       ↔ Forall (λ agg, SFltb (similarityScore agg) f1 = true)
           (aggregate sample_search ("sk_python_db", "sk_python_container")
              (tolist [f0; f1; f0; f0; f0]) 1 (mongoClient sample_store_two))).
Proof.
  destruct (get_nearest_match_core_result sample_search "sk_python_container"
              [f0; f1; f0; f0; f0] f1 true sample_store_two
              ("sk_python_db", "sk_python_container") eq_refl)
    as (o & E & Hnone & _).
  - vm_compute. repeat constructor.
  - exists o. split; [exact E | exact Hnone].
Defined.

Lemma get_nearest_matches_core_lacks_timestamp_witness :
  get_nearest_matches_core sample_search "sk_python_container"
    [f0; f1; f0; f0; f0] 3 f1 true sample_store_undated
  = (Err (KeyError "timestamp"), sample_store_undated).
Proof.
  apply (get_nearest_matches_core_lacks_timestamp sample_search
           "sk_python_container" [f0; f1; f0; f0; f0] 3 f1 true
           sample_store_undated ("sk_python_db", "sk_python_container") [] []
           {| agg_id := "test_id1"; similarityScore := fhalf;
              document := cosmosRecord record1 |}).
  - reflexivity.
  - vm_compute. reflexivity.
  - constructor.
  - reflexivity.
Defined.

Lemma upsert_core_keeps_other_ids_witness :
  (get_core "sk_python_container" "test_id1" true
     (upsert_core "sk_python_container" record2_dated sample_store_dated).2).1
  = (get_core "sk_python_container" "test_id1" true sample_store_dated).1.
Proof.
  apply (upsert_core_keeps_other_ids "sk_python_container" "sk_python_container"
           record2_dated "test_id1" true sample_store_dated
           (upsert_core "sk_python_container" record2_dated sample_store_dated).2
           (upsert_core "sk_python_container" record2_dated sample_store_dated).1).
  - vm_compute. reflexivity.
  - discriminate.
Defined.

Lemma upsert_batch_then_get_batch_witness :
  ∃ rs,
    get_batch_core "sk_python_container" ["test_id1"; "test_id2"] true
      sample_store_two = (Ok rs, sample_store_two)
    ∧ untimed <$> rs
      ≡ₚ (λ r, (MemoryRecord.id r, MemoryRecord.embedding r, MemoryRecord.text r,
                MemoryRecord.description r, __serialize_metadata r))
           <$> [record1_dated; record2_dated].
Proof.
  apply (upsert_batch_then_get_batch "sk_python_container" "sk_python_container"
           [record1_dated; record2_dated] sample_store sample_store_two
           ["test_id1"; "test_id2"]).
  - vm_compute. reflexivity.
  - repeat constructor; eexists; reflexivity.
Defined.

Lemma get_mongodb_search_client_cases_witness :
  get_mongodb_search_client (λ _, constructor_raises "InvalidURI")
    {["AZCOSMOS_CONNSTR" := "mongodb://environment"]} "mongodb://"
  = inr (constructor_raises "InvalidURI").
Proof.
  apply (proj1 (get_mongodb_search_client_cases
                  (λ _, constructor_raises "InvalidURI")
                  {["AZCOSMOS_CONNSTR" := "mongodb://environment"]}
                  "mongodb://")).
  discriminate.
Defined.

Lemma create_embedding_cases_witness :
  ∃ e, create_embedding 2 = Ok e
       ∧ length e = 5%nat
       ∧ ∀ j, (j < 5)%nat →
              e !! j = Some (if decide (Z.of_nat j = (2 - 1) mod 5)%Z
                             then f1 else f0).
Proof.
  apply (proj2 (create_embedding_cases 2)). lia.
Defined.

Lemma serialize_metadata_inj_witness :
  MemoryRecord.text record1 = MemoryRecord.text record1_dated
  ∧ MemoryRecord.description record1 = MemoryRecord.description record1_dated
  ∧ MemoryRecord.additional_metadata record1
    = MemoryRecord.additional_metadata record1_dated.
Proof.
  apply (serialize_metadata_inj record1 record1_dated). reflexivity.
Defined.

Lemma facade_upsert_then_get_witness :
  ∃ r,
    get_async
      (api := MongoStoreApi_api "sk_python_db" "sk_python_container" sample_search)
      "any other name" "test_id1" true
      (AzureCosmosDBMemoryStore_init sample_store_dated)
    = (Ok r, AzureCosmosDBMemoryStore_init sample_store_dated)
    ∧ untimed r
      = (MemoryRecord.id record1_dated, MemoryRecord.embedding record1_dated,
         MemoryRecord.text record1_dated, MemoryRecord.description record1_dated,
         __serialize_metadata record1_dated).
Proof.
  apply (facade_upsert_then_get "sk_python_db" "sk_python_container" sample_search
           "sk_python_container" "any other name" record1_dated
           (AzureCosmosDBMemoryStore_init sample_store)
           (AzureCosmosDBMemoryStore_init sample_store_dated) "test_id1").
  - eexists. reflexivity.
  - vm_compute. reflexivity.
Defined.

Lemma get_nearest_matches_core_without_embeddings_witness :
  Forall (λ p : MemoryRecord.t * float, MemoryRecord.embedding p.1 = [])
    (match get_nearest_matches_core sample_search "sk_python_container"
             [f0; f1; f0; f0; f0] 3 f0 false sample_store_two with
     | (Ok nearest, _) => nearest
     | (Err _, _) => []
     end).
Proof.
  refine (proj2 (get_nearest_matches_core_without_embeddings sample_search
                   "sk_python_container" [f0; f1; f0; f0; f0] 3 f0
                   sample_store_two sample_store_two _ _)).
  vm_compute. reflexivity.
Defined.

Lemma ensure_index_parameters_witness :
  ∃ self1,
    ensure "sk_python_db" "sk_python_container" 100 COS 1536
      (MongoStoreApi_init empty_server) = (Ok (), self1)
    ∧ pymongo.index_information ("sk_python_db", "sk_python_container")
        (mongoClient self1) !! "embedding_cosmosSearch"
      = Some (search_index ("embedding", "cosmosSearch")
                {| kind := "vector-ivf"; numLists := 100; similarity := COS;
                   dimensions := 1536 |}).
Proof.
  apply (ensure_index_parameters "sk_python_db" "sk_python_container" 100 COS 1536
           (MongoStoreApi_init empty_server)).
  reflexivity.
Defined.
